(** * UniDrive: document, folder and preview storage

    A shallow embedding of the file-system backed persistence layer of
    UniDrive (the route handlers under [src/app/api] and the preview
    generator of [src/utils]) together with the properties its design
    document states about it.

    Conventions of the embedding.
    - A JavaScript string is a [string]: one [ascii] per code unit, so the
      model covers the code units 0..255.
    - A JSON file is represented by the value [JSON.parse] returns on it; a
      directory is a finite map from the file name (without [.json] for the
      three record stores, with its extension for previews) to that value.
    - [readdir] is the key list of the map; no property below depends on the
      order of that list.
    - Paths are POSIX paths on a case-sensitive file system, and the three
      record directories hold record files only, no subdirectory. Where a
      handler takes a folder id from the request body and joins it to the
      folders directory, [Path.recordFile] follows the normalisation of
      [path.join]; a path that leaves the folders directory addresses no
      folder record, and the embedding takes it as addressing no file at
      all, though on disk it may address another one: what is proved of the
      folder records after a move is stated for ids without a separator.
    - Every reading of the clock within one request yields the same instant,
      handed to the handler as [now] (its ISO rendering) and [timestamp] (its
      milliseconds).
    - [await] is sequential composition: one request runs to completion, and
      the unawaited preview generation runs right after the writes that
      precede it. *)

From Stdlib Require Import ZArith Ascii String List Lia DecimalString Sorted.
From stdpp Require Import gmap strings list fin_maps.

Local Open Scope string_scope.
Local Open Scope list_scope.

(** ** JavaScript string primitives *)

Module JS.

(** [String.prototype.startsWith]. *)
Definition startsWith (s p : string) : bool := String.prefix p s.

(** [s.substring(0, n)]: the first [n] code units of [s], all of [s] when
    it is shorter. *)
Definition substring0 (n : nat) (s : string) : string := String.substring 0 n s.

(** White space as [trim] and the regular expression class [\s] see it,
    within the code units 0..255: TAB, LF, VT, FF, CR, SPACE and NBSP. *)
Definition is_space (c : ascii) : bool :=
  let n := nat_of_ascii c in
  ((9 <=? n)%nat && (n <=? 13)%nat) || (n =? 32)%nat || (n =? 160)%nat.

Fixpoint trimStart (s : string) : string :=
  match s with
  | String c r => if is_space c then trimStart r else s
  | EmptyString => EmptyString
  end.

Fixpoint trimEnd (s : string) : string :=
  match s with
  | EmptyString => EmptyString
  | String c r =>
      match trimEnd r with
      | EmptyString => if is_space c then EmptyString else String c EmptyString
      | r' => String c r'
      end
  end.

Definition trim (s : string) : string := trimEnd (trimStart s).

(** [s.replace(/[...]/g, '')] for a character class given as a predicate. *)
Fixpoint remove_chars (p : ascii -> bool) (s : string) : string :=
  match s with
  | EmptyString => EmptyString
  | String c r => if p c then remove_chars p r else String c (remove_chars p r)
  end.

Fixpoint all_chars (p : ascii -> bool) (s : string) : bool :=
  match s with
  | EmptyString => true
  | String c r => p c && all_chars p r
  end.

Definition first_char (s : string) : option ascii :=
  match s with
  | EmptyString => None
  | String c _ => Some c
  end.

Fixpoint last_char (s : string) : option ascii :=
  match s with
  | EmptyString => None
  | String c EmptyString => Some c
  | String _ r => last_char r
  end.

(** A string is falsy exactly when it is empty. *)
Definition nonempty (s : string) : bool :=
  match s with
  | EmptyString => false
  | String _ _ => true
  end.

Fixpoint repeat_char (c : ascii) (n : nat) : string :=
  match n with
  | O => EmptyString
  | S k => String c (repeat_char c k)
  end.

(** Decimal rendering of an integer, as template literals print it. *)
Definition of_Z (z : Z) : string := NilZero.string_of_int (Z.to_int z).

End JS.

(** ** Sanitising titles and folder names *)

(** The character class of the regular expression both routes strip:
    less-than, greater-than, colon, double quote, slash, backslash, bar,
    question mark and star. *)
Definition unsafe_char (c : ascii) : bool :=
  existsb (Ascii.eqb c)
    ["<"; ">"; ":"; "034"; "/"; "092"; "|"; "?"; "*"]%char.

(** Strip the unsafe characters, [trim()], then [substring(0, max)]: the
    expression shared by the document and the folder routes. *)
Definition sanitize (max : nat) (s : string) : string :=
  JS.substring0 max (JS.trim (JS.remove_chars unsafe_char s)).

Definition sanitizeTitle : string -> string := sanitize 100.
Definition sanitizeName : string -> string := sanitize 50.

(** What the design document asks of a sanitised string. *)
Definition no_unsafe (s : string) : Prop :=
  JS.all_chars (fun c => negb (unsafe_char c)) s = true.

Definition no_leading_space (s : string) : Prop :=
  forall c, JS.first_char s = Some c -> JS.is_space c = false.

Definition no_trailing_space (s : string) : Prop :=
  forall c, JS.last_char s = Some c -> JS.is_space c = false.

Definition clean (max : nat) (s : string) : Prop :=
  no_unsafe s /\ no_leading_space s /\ no_trailing_space s /\
  String.length s <= max.

(** ** JSON values *)

(** The values [JSON.parse] produces; numbers are restricted to integers,
    printed by [Json.stringify] in decimal digits as [JSON.stringify] prints
    the integers below 10^21 in absolute value (beyond, it writes an
    exponent). *)
#[local] Set Warnings "-register-all".
Inductive json : Type :=
| JNull
| JBool (b : bool)
| JNum (n : Z)
| JStr (s : string)
| JArr (items : list json)
| JObj (fields : list (string * json)).

Module Json.

(** JavaScript truthiness of a parsed value. *)
Definition truthy (v : json) : bool :=
  match v with
  | JNull => false
  | JBool b => b
  | JNum n => negb (n =? 0)%Z
  | JStr s => JS.nonempty s
  | JArr _ | JObj _ => true
  end.

(** Truthiness of a property read: [None] is [undefined]. *)
Definition truthy_opt (o : option json) : bool :=
  match o with
  | Some v => truthy v
  | None => false
  end.

(** [typeof v === 'object'] (which holds of [null] and of arrays too). *)
Definition typeof_object (v : json) : bool :=
  match v with
  | JNull | JArr _ | JObj _ => true
  | _ => false
  end.

Fixpoint lookup_field (k : string) (fs : list (string * json)) : option json :=
  match fs with
  | [] => None
  | (k', v) :: rest => if String.eqb k k' then Some v else lookup_field k rest
  end.

(** The property read [v.k] for the property names the routes use; it is
    [undefined] on anything but an object that has the key (the keys of a
    parsed object are distinct). *)
Definition get (v : json) (k : string) : option json :=
  match v with
  | JObj fs => lookup_field k fs
  | _ => None
  end.

Definition dquote : ascii := "034"%char.
Definition backslash : ascii := "092"%char.

Definition hex_digit (n : nat) : ascii :=
  ascii_of_nat (if (n <? 10)%nat then 48 + n else 87 + n).

(** The escape [JSON.stringify] writes for one code unit of a string. *)
Definition escape_char (c : ascii) : string :=
  let n := nat_of_ascii c in
  if Ascii.eqb c dquote then String backslash (String dquote EmptyString)
  else if Ascii.eqb c backslash then String backslash (String backslash EmptyString)
  else if (n =? 8)%nat then "\b"
  else if (n =? 9)%nat then "\t"
  else if (n =? 10)%nat then "\n"
  else if (n =? 12)%nat then "\f"
  else if (n =? 13)%nat then "\r"
  else if (n <? 32)%nat then
    "\u00" +:+ String (hex_digit (n / 16)) (String (hex_digit (n mod 16)) EmptyString)
  else String c EmptyString.

Fixpoint escape (s : string) : string :=
  match s with
  | EmptyString => EmptyString
  | String c r => escape_char c +:+ escape r
  end.

Definition quote (s : string) : string :=
  String dquote (escape s +:+ String dquote EmptyString).

(** [JSON.stringify(v)], the compact form without indentation. *)
Fixpoint stringify (v : json) : string :=
  match v with
  | JNull => "null"
  | JBool true => "true"
  | JBool false => "false"
  | JNum n => JS.of_Z n
  | JStr s => quote s
  | JArr items => "[" +:+ String.concat "," (map stringify items) +:+ "]"
  | JObj fields =>
      "{" +:+ String.concat ","
               (map (fun kv => quote (fst kv) +:+ ":" +:+ stringify (snd kv)) fields)
          +:+ "}"
  end.

Definition newline : string := String "010"%char EmptyString.

(** [JSON.stringify(v, null, 2)], the text the routes write to a file;
    [indent] is the indentation of the enclosing level. *)
Fixpoint stringifyIndented (indent : string) (v : json) : string :=
  let inner := indent +:+ "  " in
  match v with
  | JArr [] => "[]"
  | JArr items =>
      "[" +:+ newline
        +:+ String.concat ("," +:+ newline)
              (map (fun x => inner +:+ stringifyIndented inner x) items)
        +:+ newline +:+ indent +:+ "]"
  | JObj [] => "{}"
  | JObj fields =>
      "{" +:+ newline
        +:+ String.concat ("," +:+ newline)
              (map (fun kv => inner +:+ quote (fst kv) +:+ ": "
                                +:+ stringifyIndented inner (snd kv)) fields)
        +:+ newline +:+ indent +:+ "}"
  | _ => stringify v
  end.

End Json.

(** ** The storage directory *)

(** [storage/documents/<id>.json] *)
Record DocumentData := mkDocumentData {
  doc_id : string;
  doc_title : string;
  doc_content : json;
  doc_createdAt : string;
  doc_modifiedAt : string
}.

(** [storage/metadata/<id>.json]; [meta_folderId = None] is an absent
    [folderId] property. *)
Record Metadata := mkMetadata {
  meta_id : string;
  meta_title : string;
  meta_createdAt : string;
  meta_modifiedAt : string;
  meta_size : nat;
  meta_type : string;
  meta_folderId : option string
}.

(** [storage/folders/<id>.json]; [folder_parentFolderId = None] is [null]. *)
Record FolderData := mkFolderData {
  folder_id : string;
  folder_name : string;
  folder_parentFolderId : option string;
  folder_createdAt : string;
  folder_modifiedAt : string;
  folder_documentCount : nat
}.

(** A file of [storage/previews] with its modification time (ms). *)
Record PreviewFile := mkPreviewFile {
  preview_data : string;
  preview_mtime : Z
}.

Record Storage := mkStorage {
  documents : gmap string DocumentData;
  metadata : gmap string Metadata;
  folders : gmap string FolderData;
  previews : gmap string PreviewFile
}.

Definition with_documents (f : gmap string DocumentData -> gmap string DocumentData)
    (st : Storage) : Storage :=
  mkStorage (f (documents st)) (metadata st) (folders st) (previews st).

Definition with_metadata (f : gmap string Metadata -> gmap string Metadata)
    (st : Storage) : Storage :=
  mkStorage (documents st) (f (metadata st)) (folders st) (previews st).

Definition with_folders (f : gmap string FolderData -> gmap string FolderData)
    (st : Storage) : Storage :=
  mkStorage (documents st) (metadata st) (f (folders st)) (previews st).

Definition with_previews (f : gmap string PreviewFile -> gmap string PreviewFile)
    (st : Storage) : Storage :=
  mkStorage (documents st) (metadata st) (folders st) (f (previews st)).

(** [readdir(dir)] filtered to the [.json] files, without the suffix. *)
Definition readdir {V : Type} (dir : gmap string V) : list string :=
  (map_to_list dir).*1.

(** The answer of a route handler: the JSON body of a success, or the
    status and message of an error response. *)
Inductive Response (A : Type) : Type :=
| Success (body : A)
| Failure (status : nat) (error : string).

Arguments Success {A} body.
Arguments Failure {A} status error.

Definition is_success {A : Type} (r : Response A) : bool :=
  match r with
  | Success _ => true
  | Failure _ _ => false
  end.

(** [documentData] as the object literal the routes serialise: the keys in
    the order of the literal of the create route, which the spread of the
    update route keeps. *)
Definition documentJSON (d : DocumentData) : json :=
  JObj [("id", JStr (doc_id d)); ("title", JStr (doc_title d));
        ("content", doc_content d); ("createdAt", JStr (doc_createdAt d));
        ("modifiedAt", JStr (doc_modifiedAt d))].

(** ** Preview generator ([DocumentPreviewGenerator]) *)

Module Preview.

Definition width : Z := 300.
Definition height : Z := 200.
Definition padding : Z := 20.
Definition baseLineHeight : Z := 16.
Definition fontSize : Z := 12.

(** [Math.floor((width - padding * 2) / (fontSize * 0.6))]: the quotient
    260 / 7.2 computed on integers scaled by ten. *)
Definition maxCharsPerLine : nat :=
  Z.to_nat (((width - padding * 2) * 10) / (fontSize * 6)).

Record StructuredLine := mkLine {
  text : string;
  spaceAbove : Z
}.

Definition CR : ascii := "013"%char.
Definition LF : ascii := "010"%char.

(** [dataStream.split(/\r{2,}/)]: [acc] is the piece being read and
    [pending] the number of carriage returns seen since its last other
    character; a run of two or more separates two pieces, a single one
    stays in the piece. *)
Fixpoint split_cr_runs (s : string) (acc : string) (pending : nat) : list string :=
  match s with
  | EmptyString =>
      if (2 <=? pending)%nat then [acc; EmptyString]
      else [acc +:+ JS.repeat_char CR pending]
  | String c r =>
      if Ascii.eqb c CR then split_cr_runs r acc (S pending)
      else if (2 <=? pending)%nat then acc :: split_cr_runs r (String c EmptyString) 0
      else split_cr_runs r (acc +:+ JS.repeat_char CR pending +:+ String c EmptyString) 0
  end.

(** [line.replace(/[\r\n]/g, '').trim()] *)
Definition clean_line (line : string) : string :=
  JS.trim (JS.remove_chars (fun c => Ascii.eqb c CR || Ascii.eqb c LF) line).

(** [lines.map((text, index) => ({text, spaceAbove: index > 0 ? 5 : 0}))] *)
Definition with_spacing (lines : list string) : list StructuredLine :=
  match lines with
  | [] => []
  | l :: rest => mkLine l 0 :: map (fun t => mkLine t 5) rest
  end.

(** [extractStructuredText(document)]; [None] is a [TypeError]: that of
    reading [document.body] of a [null] document, or that of calling [split]
    on a truthy [dataStream] that is not a string. *)
Definition extractStructuredText (document : json) : option (list StructuredLine) :=
  match document with
  | JNull => None
  | _ =>
      match Json.get document "body" with
      | Some body =>
          if Json.truthy body then
            match Json.get body "dataStream" with
            | Some (JStr dataStream) =>
                if JS.nonempty dataStream then
                  Some (with_spacing
                          (filter (fun line => JS.nonempty line = true)
                             (map clean_line (split_cr_runs dataStream EmptyString 0))))
                else Some []
            | Some v => if Json.truthy v then None else Some []
            | None => Some []
            end
          else Some []
      | None => Some []
      end
  end.

(** [text.split(/\s+/).filter(word => word.length > 0)]: the maximal runs of
    characters that are not white space; [cur] is the run being read. *)
Fixpoint split_words (s : string) (cur : string) : list string :=
  match s with
  | EmptyString => if JS.nonempty cur then [cur] else []
  | String c r =>
      if JS.is_space c then
        (if JS.nonempty cur then cur :: split_words r EmptyString
         else split_words r EmptyString)
      else split_words r (cur +:+ String c EmptyString)
  end.

(** One turn of [for (const word of words)]; the state is
    [(displayLines, currentLine)]. *)
Definition wrap_step (maxChars : nat) (acc : list string * string) (word : string)
    : list string * string :=
  let '(displayLines, currentLine) := acc in
  let testLine :=
    currentLine +:+ (if JS.nonempty currentLine then " " else EmptyString) +:+ word in
  if (maxChars <? String.length testLine)%nat then
    if JS.nonempty currentLine then (displayLines ++ [currentLine], word)
    else (displayLines ++ [JS.substring0 (maxChars - 3) word +:+ "..."], EmptyString)
  else (displayLines, testLine).

(** The display lines of one logical line: the loop, then the push of a
    non-empty [currentLine]. *)
Definition wrapWords (maxChars : nat) (words : list string) : list string :=
  let '(displayLines, currentLine) :=
    fold_left (wrap_step maxChars) words ([], EmptyString) in
  if JS.nonempty currentLine then displayLines ++ [currentLine] else displayLines.

(** A pushed [<text>] element: its [y], the display line it shows, and
    whether the height-overflow marker was appended to it. The source keeps
    the element as markup and appends the marker by replacing the first
    closing tag; the escaped line holds no less-than sign, so that tag is the
    element's own. *)
Record TextElement := mkText {
  te_y : Z;
  te_line : string;
  te_more : bool
}.

(** The characters a text element shows. *)
Definition shown (e : TextElement) : string :=
  te_line e +:+ (if te_more e then "..." else EmptyString).

(** [textElements[textElements.length - 1] = lastElement.replace(...)] under
    [if (textElements.length > 0)]. *)
Fixpoint mark_last (els : list TextElement) : list TextElement :=
  match els with
  | [] => []
  | [e] => [mkText (te_y e) (te_line e) true]
  | e :: rest => e :: mark_last rest
  end.

(** [for (const displayLine of displayLines)]: returns [currentY] and the
    elements; the loop stops at the first line below the canvas. *)
Fixpoint emitLines (displayLines : list string) (currentY : Z)
    (textElements : list TextElement) : Z * list TextElement :=
  match displayLines with
  | [] => (currentY, textElements)
  | displayLine :: rest =>
      let y := (currentY + baseLineHeight)%Z in
      if (height - padding <? y)%Z then (y, mark_last textElements)
      else emitLines rest y (textElements ++ [mkText y displayLine false])
  end.

(** The loop over the structured lines. *)
Fixpoint layoutLines (lines : list StructuredLine) (currentY : Z)
    (textElements : list TextElement) : list TextElement :=
  match lines with
  | [] => textElements
  | structuredLine :: rest =>
      let y0 :=
        if (0 <? spaceAbove structuredLine)%Z
        then (currentY + spaceAbove structuredLine * 3)%Z else currentY in
      let words := split_words (text structuredLine) EmptyString in
      let '(y1, els) := emitLines (wrapWords maxCharsPerLine words) y0 textElements in
      if (height - padding <? y1)%Z then els else layoutLines rest y1 els
  end.

(** The text elements of the preview of a document. *)
Definition previewElements (lines : list StructuredLine) : list TextElement :=
  layoutLines lines padding [].

Definition escape_markup_char (c : ascii) : string :=
  if Ascii.eqb c "<" then "&lt;"
  else if Ascii.eqb c ">" then "&gt;"
  else if Ascii.eqb c "&" then "&amp;"
  else String c EmptyString.

(** [displayLine.replace(/[<>&]/g, ...)] *)
Fixpoint escape_markup (s : string) : string :=
  match s with
  | EmptyString => EmptyString
  | String c r => escape_markup_char c +:+ escape_markup r
  end.

Definition attr (name value : string) : string :=
  name +:+ "=" +:+ String Json.dquote (value +:+ String Json.dquote EmptyString).

Definition fontFamily : string :=
  "-apple-system, BlinkMacSystemFont, 'Segoe UI', sans-serif".

Definition renderText (e : TextElement) : string :=
  "<text " +:+ attr "x" (JS.of_Z padding) +:+ " " +:+ attr "y" (JS.of_Z (te_y e)) +:+ " "
    +:+ attr "font-family" fontFamily +:+ " "
    +:+ attr "font-size" (JS.of_Z fontSize) +:+ " " +:+ attr "fill" "#374151" +:+ ">"
    +:+ escape_markup (te_line e) +:+ (if te_more e then "..." else EmptyString)
    +:+ "</text>".

Definition svgOpen : string :=
  "<svg " +:+ attr "width" (JS.of_Z width) +:+ " " +:+ attr "height" (JS.of_Z height)
    +:+ " " +:+ attr "xmlns" "http://www.w3.org/2000/svg" +:+ ">"
    +:+ "<rect " +:+ attr "width" "100%" +:+ " " +:+ attr "height" "100%" +:+ " "
    +:+ attr "fill" "#f8f9fa" +:+ " " +:+ attr "stroke" "#e5e7eb" +:+ " "
    +:+ attr "stroke-width" "1" +:+ "/>".

Definition emptyDocumentText : string :=
  "<text " +:+ attr "x" "50%" +:+ " " +:+ attr "y" "50%" +:+ " "
    +:+ attr "text-anchor" "middle" +:+ " " +:+ attr "dominant-baseline" "central" +:+ " "
    +:+ attr "font-family" fontFamily +:+ " " +:+ attr "font-size" "14" +:+ " "
    +:+ attr "fill" "#9ca3af" +:+ " " +:+ attr "font-style" "italic"
    +:+ ">Empty Document</text>".

(** [svgContent], up to the white space between tags and attributes. *)
Definition svgContent (lines : list StructuredLine) : string :=
  match lines with
  | [] => svgOpen +:+ emptyDocumentText +:+ "</svg>"
  | _ => svgOpen +:+ String.concat " " (map renderText (previewElements lines)) +:+ "</svg>"
  end.

Definition previewFileName (documentId : string) : string := documentId +:+ ".svg".

Definition previewUrl (documentId : string) (timestamp : Z) : string :=
  "/api/previews/" +:+ documentId +:+ ".svg?t=" +:+ JS.of_Z timestamp.

Definition placeholderUrl : string :=
  "https://via.placeholder.com/300x200/f8f9fa/374151?text=Generating...".

(** [generatePreview(documentId, document)] at clock reading [now]: [None]
    is a rejected promise (nothing is written), otherwise the returned URL
    and the storage with the preview file written. *)
Definition generatePreview (now : Z) (documentId : string) (document : json)
    (st : Storage) : option (string * Storage) :=
  match extractStructuredText document with
  | None => None
  | Some structuredLines =>
      Some (previewUrl documentId now,
            with_previews
              (insert (previewFileName documentId)
                 (mkPreviewFile (svgContent structuredLines) now)) st)
  end.

(** The unawaited call of the document routes: a rejection is logged and
    dropped. *)
Definition generatePreviewInBackground (now : Z) (documentId : string)
    (document : json) (st : Storage) : Storage :=
  match generatePreview now documentId document st with
  | Some (_, st') => st'
  | None => st
  end.

(** [getPreviewUrl(documentId)] at clock reading [now]; [stat] of a file is
    its entry in the directory. The storage is returned as it is left. *)
Definition getPreviewUrl (now : Z) (documentId : string) (st : Storage)
    : string * Storage :=
  let previewPath := previewFileName documentId in
  match previews st !! previewPath with
  | Some _ =>
      match previews st !! previewPath with
      | Some stats => (previewUrl documentId (preview_mtime stats), st)
      | None => (previewUrl documentId now, st)
      end
  | None => (placeholderUrl, st)
  end.

End Preview.

(** ** Checks shared by the route handlers *)

(** [!body || typeof body !== 'object'] *)
Definition invalid_body (body : json) : bool :=
  negb (Json.truthy body) || negb (Json.typeof_object body).

(** ** Document store ([/api/documents] and [/api/documents/[id]]) *)

Module Documents.

Definition generateDocumentId (timestamp : Z) (randomString : string) : string :=
  "doc_" +:+ JS.of_Z timestamp +:+ "_" +:+ randomString.

(** [body.title && typeof body.title !== 'string'] *)
Definition invalid_title (body : json) : bool :=
  match Json.get body "title" with
  | Some (JStr _) => false
  | Some v => Json.truthy v
  | None => false
  end.

(** [body.title ? body.title.replace(...).trim().substring(0, 100)
                : 'Untitled Document'], for a body that passed
    [invalid_title]. *)
Definition sanitizedTitle (body : json) : string :=
  match Json.get body "title" with
  | Some (JStr title) =>
      if JS.nonempty title then sanitizeTitle title else "Untitled Document"
  | _ => "Untitled Document"
  end.

Definition defaultContent : json :=
  JObj [("body", JObj [("dataStream", JStr EmptyString); ("textRuns", JArr []);
                       ("paragraphs", JArr [JObj [("startIndex", JNum 0)]])]);
        ("documentStyle",
         JObj [("pageSize", JObj [("width", JNum 595); ("height", JNum 842)]);
               ("marginTop", JNum 72); ("marginBottom", JNum 72);
               ("marginRight", JNum 90); ("marginLeft", JNum 90)])].

(** [size: JSON.stringify(documentData).length] *)
Definition sizeOf (d : DocumentData) : nat :=
  String.length (Json.stringify (documentJSON d)).

Record Created := mkCreated {
  created_documentId : string;
  created_title : string
}.

(** [POST /api/documents]; [timestamp] and [randomString] are the readings
    of [Date.now()] and of the random source in [generateDocumentId]. *)
Definition POST (now : string) (timestamp : Z) (randomString : string)
    (body : json) (st : Storage) : Response Created * Storage :=
  if invalid_body body then (Failure 400 "Invalid request body", st)
  else if invalid_title body then (Failure 400 "Title must be a string", st)
  else
    let documentId := generateDocumentId timestamp randomString in
    let documentData :=
      mkDocumentData documentId (sanitizedTitle body)
        (match Json.get body "content" with
         | Some c => if Json.truthy c then c else defaultContent
         | None => defaultContent
         end)
        now now in
    let metadata :=
      mkMetadata documentId (doc_title documentData) (doc_createdAt documentData)
        (doc_modifiedAt documentData) (sizeOf documentData) "document" None in
    let st1 := with_documents (insert documentId documentData) st in
    let st2 := with_metadata (insert documentId metadata) st1 in
    let st3 :=
      Preview.generatePreviewInBackground timestamp documentId
        (doc_content documentData) st2 in
    (Success (mkCreated documentId (doc_title documentData)), st3).

Record Updated := mkUpdated {
  updated_documentId : string;
  updated_title : string;
  updated_modifiedAt : string
}.

(** [PUT /api/documents/[id]] *)
Definition PUT (now : string) (timestamp : Z) (documentId : string)
    (body : json) (st : Storage) : Response Updated * Storage :=
  if negb (JS.nonempty documentId) then (Failure 400 "Invalid document ID", st)
  else if invalid_body body then (Failure 400 "Invalid request body", st)
  else if invalid_title body then (Failure 400 "Title must be a string", st)
  else
    let sanitizedTitle := sanitizedTitle body in
    match documents st !! documentId with
    | None => (Failure 404 "Document not found", st)
    | Some existingDocument =>
        let updatedDocument :=
          mkDocumentData (doc_id existingDocument) sanitizedTitle
            (match Json.get body "content" with
             | Some c => if Json.truthy c then c else doc_content existingDocument
             | None => doc_content existingDocument
             end)
            (doc_createdAt existingDocument) now in
        let updatedMetadata :=
          mkMetadata documentId sanitizedTitle (doc_createdAt existingDocument)
            (doc_modifiedAt updatedDocument) (sizeOf updatedDocument) "document"
            None in
        let st1 := with_documents (insert documentId updatedDocument) st in
        let st2 := with_metadata (insert documentId updatedMetadata) st1 in
        let st3 :=
          match Json.get body "content" with
          | Some c =>
              if Json.truthy c
              then Preview.generatePreviewInBackground timestamp documentId c st2
              else st2
          | None => st2
          end in
        (Success (mkUpdated documentId sanitizedTitle (doc_modifiedAt updatedDocument)),
         st3)
    end.

(** [DELETE /api/documents/[id]]; [unlink] of a missing metadata file throws
    and the handler answers 500 with the content file already gone. *)
Definition DELETE (documentId : string) (st : Storage) : Response string * Storage :=
  if negb (JS.nonempty documentId) then (Failure 400 "Invalid document ID", st)
  else
    match documents st !! documentId with
    | None => (Failure 404 "Document not found", st)
    | Some _ =>
        let st1 := with_documents (delete documentId) st in
        match metadata st1 !! documentId with
        | None => (Failure 500 "Internal server error", st1)
        | Some _ =>
            let st2 := with_metadata (delete documentId) st1 in
            let previewPath := documentId +:+ ".png" in
            let st3 :=
              match previews st2 !! previewPath with
              | Some _ => with_previews (delete previewPath) st2
              | None => st2
              end in
            (Success documentId, st3)
        end
    end.

End Documents.

(** ** Folder store ([/api/folders] and [/api/folders/[id]]) *)

Module Folders.

(** [!folderId || !folderId.startsWith('folder_')] *)
Definition invalid_id (folderId : string) : bool :=
  negb (JS.nonempty folderId) || negb (JS.startsWith folderId "folder_").

(** The name checks of [POST /api/folders]: the sanitised name, or the 400
    answer. *)
Definition sanitizedName (body : json) : Response string :=
  match Json.get body "name" with
  | Some (JStr name) =>
      if JS.nonempty name then
        let sanitizedName := sanitizeName name in
        if JS.nonempty sanitizedName then Success sanitizedName
        else Failure 400 "Invalid folder name"
      else Failure 400 "Folder name is required and must be a string"
  | _ => Failure 400 "Folder name is required and must be a string"
  end.

Definition generateFolderId (timestamp : Z) (randomString : string) : string :=
  "folder_" +:+ JS.of_Z timestamp +:+ "_" +:+ randomString.

(** [body.parentFolderId || null]. A truthy value that is not a string is
    stored as it is by the route; no comparison with a folder id holds of
    it, which is all that the handlers of this module ask of a parent, so it
    is represented like [null] here. The listing of the root folders asks
    for its truthiness instead: what is said of a created folder and that
    listing is said for the bodies of [string_parent] below. *)
Definition parentFolderId (body : json) : option string :=
  match Json.get body "parentFolderId" with
  | Some (JStr parent) => if JS.nonempty parent then Some parent else None
  | _ => None
  end.

(** The bodies of which [parentFolderId] is the stored value itself: the
    parent is absent, falsy or a string. A truthy parent of another type is
    truthy in the stored record too, which the listing of the root folders
    tells from [null]. *)
Definition string_parent (body : json) : bool :=
  match Json.get body "parentFolderId" with
  | Some (JStr _) => true
  | Some v => negb (Json.truthy v)
  | None => true
  end.

(** [POST /api/folders]; the parent is not checked against the storage. *)
Definition POST (now : string) (timestamp : Z) (randomString : string)
    (body : json) (st : Storage) : Response FolderData * Storage :=
  if invalid_body body then (Failure 400 "Invalid request body", st)
  else
    match sanitizedName body with
    | Failure status error => (Failure status error, st)
    | Success name =>
        let folderId := generateFolderId timestamp randomString in
        let folderData := mkFolderData folderId name (parentFolderId body) now now 0 in
        (Success folderData, with_folders (insert folderId folderData) st)
    end.

(** [PUT /api/folders/[id]]: the record is written back, renamed when the
    body brings a name. *)
Definition PUT (now : string) (folderId : string) (body : json) (st : Storage)
    : Response FolderData * Storage :=
  if invalid_id folderId then (Failure 400 "Invalid folder ID", st)
  else if invalid_body body then (Failure 400 "Invalid request body", st)
  else
    match folders st !! folderId with
    | None => (Failure 404 "Folder not found", st)
    | Some folderData =>
        match Json.get body "name" with
        | Some (JStr name) =>
            if JS.nonempty name then
              let sanitizedName := sanitizeName name in
              if JS.nonempty sanitizedName then
                let folderData' :=
                  mkFolderData (folder_id folderData) sanitizedName
                    (folder_parentFolderId folderData) (folder_createdAt folderData)
                    now (folder_documentCount folderData) in
                (Success folderData', with_folders (insert folderId folderData') st)
              else (Failure 400 "Invalid folder name", st)
            else (Success folderData, with_folders (insert folderId folderData) st)
        | _ => (Success folderData, with_folders (insert folderId folderData) st)
        end
    end.

(** The documents a folder holds: [metadata.folderId === folderId]. *)
Definition memberDocuments (folderId : string) (st : Storage) : list Metadata :=
  filter (fun m => meta_folderId m = Some folderId) (map_to_list (metadata st)).*2.

(** The direct children of a folder: [subfolder.parentFolderId === folderId]. *)
Definition childFolders (folderId : string) (st : Storage) : list FolderData :=
  filter (fun f => folder_parentFolderId f = Some folderId)
    (map_to_list (folders st)).*2.

Record Detail := mkDetail {
  detail_folder : FolderData;
  detail_subfolders : list FolderData;
  detail_documents : list Metadata
}.

(** [GET /api/folders/[id]]. The two lists of the answer are given in
    directory order; the handler sorts them by [modifiedAt] for display. *)
Definition GET (now : string) (folderId : string) (st : Storage)
    : Response Detail * Storage :=
  if invalid_id folderId then (Failure 400 "Invalid folder ID", st)
  else
    match folders st !! folderId with
    | None => (Failure 404 "Folder not found", st)
    | Some folderData =>
        let subfolders := childFolders folderId st in
        let documents := memberDocuments folderId st in
        if bool_decide (length documents = folder_documentCount folderData)
        then (Success (mkDetail folderData subfolders documents), st)
        else
          let folderData' :=
            mkFolderData (folder_id folderData) (folder_name folderData)
              (folder_parentFolderId folderData) (folder_createdAt folderData)
              now (length documents) in
          (Success (mkDetail folderData' subfolders documents),
           with_folders (insert folderId folderData') st)
    end.

(** A successful [unlink], in the order the calls are made. *)
Inductive Unlink : Type :=
| UnlinkDocument (documentId : string)
| UnlinkMetadata (file : string)
| UnlinkFolder (file : string).

(** The body of the loop of [deleteDocumentsInFolder] for one file of the
    listing; a file that cannot be read is skipped by the [catch]. *)
Definition deleteDocumentStep (folderId file : string) (st : Storage)
    : Storage * list Unlink :=
  match metadata st !! file with
  | None => (st, [])
  | Some m =>
      if bool_decide (meta_folderId m = Some folderId) then
        let documentId := meta_id m in
        let '(st1, t1) :=
          match documents st !! documentId with
          | Some _ => (with_documents (delete documentId) st, [UnlinkDocument documentId])
          | None => (st, [])
          end in
        (with_metadata (delete file) st1, t1 ++ [UnlinkMetadata file])
      else (st, [])
  end.

(** The loop of [deleteDocumentsInFolder] over the listing [files] taken at
    its start: the storage it leaves and the unlinks it made. *)
Fixpoint deleteDocumentsLoop (files : list string) (folderId : string)
    (st : Storage) : Storage * list Unlink :=
  match files with
  | [] => (st, [])
  | file :: rest =>
      let '(st1, t1) := deleteDocumentStep folderId file st in
      let '(st2, t2) := deleteDocumentsLoop rest folderId st1 in
      (st2, t1 ++ t2)
  end.

Definition deleteDocumentsInFolder (folderId : string) (st : Storage)
    : Storage * list Unlink :=
  deleteDocumentsLoop (readdir (metadata st)) folderId st.

(** [unlink(filePath)] of a folder record; on a missing file it throws into
    the [catch] of the loop. *)
Definition unlinkFolder (file : string) (st : Storage) : Storage * list Unlink :=
  match folders st !! file with
  | Some _ => (with_folders (delete file) st, [UnlinkFolder file])
  | None => (st, [])
  end.

(** The loop of [deleteSubfoldersInFolder]; [self] is the recursive call. *)
Fixpoint deleteSubfoldersLoop
    (self : string -> Storage -> option (Storage * list Unlink))
    (files : list string) (folderId : string) (st : Storage)
    : option (Storage * list Unlink) :=
  match files with
  | [] => Some (st, [])
  | file :: rest =>
      match folders st !! file with
      | None => deleteSubfoldersLoop self rest folderId st
      | Some subfolder =>
          if bool_decide (folder_parentFolderId subfolder = Some folderId) then
            let '(st1, t1) := deleteDocumentsInFolder (folder_id subfolder) st in
            match self (folder_id subfolder) st1 with
            | None => None
            | Some (st2, t2) =>
                let '(st3, t3) := unlinkFolder file st2 in
                match deleteSubfoldersLoop self rest folderId st3 with
                | None => None
                | Some (st4, t4) => Some (st4, t1 ++ t2 ++ t3 ++ t4)
                end
            end
          else deleteSubfoldersLoop self rest folderId st
      end
  end.

(** [deleteSubfoldersInFolder(folderId)] with a bound [fuel] on the depth of
    the recursion; [None] is a recursion deeper than the bound. *)
Fixpoint deleteSubfoldersInFolder (fuel : nat) (folderId : string) (st : Storage)
    : option (Storage * list Unlink) :=
  match fuel with
  | O => None
  | S fuel' =>
      deleteSubfoldersLoop (deleteSubfoldersInFolder fuel') (readdir (folders st))
        folderId st
  end.

(** [DELETE /api/folders/[id]]: the answer, the storage left and the unlinks
    made; [None] when the recursion does not end within [fuel]. *)
Definition DELETE (fuel : nat) (folderId : string) (st : Storage)
    : option (Response unit * Storage * list Unlink) :=
  if invalid_id folderId then Some (Failure 400 "Invalid folder ID", st, [])
  else
    match folders st !! folderId with
    | None => Some (Failure 404 "Folder not found", st, [])
    | Some _ =>
        let '(st1, t1) := deleteDocumentsInFolder folderId st in
        match deleteSubfoldersInFolder fuel folderId st1 with
        | None => None
        | Some (st2, t2) =>
            match folders st2 !! folderId with
            | Some _ =>
                Some (Success tt, with_folders (delete folderId) st2,
                      t1 ++ t2 ++ [UnlinkFolder folderId])
            | None => Some (Failure 500 "Internal server error", st2, t1 ++ t2)
            end
        end
    end.

End Folders.

(** ** Move coordinator ([/api/documents/[id]/move]) *)

(** ** Paths below the folders directory *)

Module Path.

(** The segments of a path, split at the separator; [cur] is the segment
    being read. *)
Fixpoint segments (path : string) (cur : string) : list string :=
  match path with
  | EmptyString => [cur]
  | String c r =>
      if Ascii.eqb c "/" then cur :: segments r EmptyString
      else segments r (cur +:+ String c EmptyString)
  end.

(** One segment of the normalisation [path.join] applies: [below] holds the
    directories entered below the starting directory, innermost first, and
    is [None] once the path has left that directory. An empty segment and
    [.] stay, [..] goes up, any other segment goes down. *)
Definition enter (below : option (list string)) (segment : string)
    : option (list string) :=
  match below with
  | None => None
  | Some dirs =>
      if String.eqb segment EmptyString || String.eqb segment "." then Some dirs
      else if String.eqb segment ".." then
        match dirs with
        | [] => None
        | _ :: rest => Some rest
        end
      else Some (segment :: dirs)
  end.

(** What [join(dir, id + '.json')] addresses: the record file [stem] of
    [dir] itself, a file of a subdirectory of [dir] - there is none - or a
    file outside [dir]. *)
Inductive Location : Type :=
| File (stem : string)
| Missing
| Outside.

(** The last segment of [id], followed by [.json], is the file name; the
    segments before it are normalised below the directory. *)
Definition recordFile (id : string) : Location :=
  let path := segments id EmptyString in
  match fold_left enter (removelast path) (Some []) with
  | Some [] => File (List.last path EmptyString)
  | Some (_ :: _) => Missing
  | None => Outside
  end.

(** An id without a separator: the name of a file. *)
Definition plain (id : string) : bool :=
  JS.all_chars (fun c => negb (Ascii.eqb c "/")) id.

End Path.

Module Move.

(** One turn of the scan of [updateFolderCounts]: [if (metadata.folderId)]
    counts the document under its folder. *)
Definition countStep (folderCounts : gmap string nat) (m : Metadata)
    : gmap string nat :=
  match meta_folderId m with
  | Some folderId =>
      if JS.nonempty folderId
      then <[folderId := default 0 (folderCounts !! folderId) + 1]> folderCounts
      else folderCounts
  | None => folderCounts
  end.

Definition folderCounts (st : Storage) : gmap string nat :=
  fold_left countStep (map_to_list (metadata st)).*2 ∅.

(** [id && typeof id === 'string' && id.startsWith('folder_')] *)
Definition affected (id : option string) : list string :=
  match id with
  | Some folderId =>
      if JS.nonempty folderId && JS.startsWith folderId "folder_" then [folderId] else []
  | None => []
  end.

(** One turn of [for (const folderId of foldersToUpdate)]: the record file
    that [join(foldersDir, folderId + '.json')] addresses is rewritten, when
    it exists, with the count found under [folderId]. *)
Definition writeCount (now : string) (counts : gmap string nat) (st : Storage)
    (folderId : string) : Storage :=
  match Path.recordFile folderId with
  | Path.File file =>
      match folders st !! file with
      | Some folderData =>
          with_folders
            (insert file
               (mkFolderData (folder_id folderData) (folder_name folderData)
                  (folder_parentFolderId folderData) (folder_createdAt folderData)
                  now (default 0 (counts !! folderId)))) st
      | None => st
      end
  | Path.Missing | Path.Outside => st
  end.

(** [updateFolderCounts(oldFolderId, newFolderId)] *)
Definition updateFolderCounts (now : string) (oldFolderId newFolderId : option string)
    (st : Storage) : Storage :=
  let counts := folderCounts st in
  let foldersToUpdate := affected oldFolderId ++ affected newFolderId in
  fold_left (writeCount now counts) foldersToUpdate st.

(** The target of a move request: [Success None] is the root (a [folderId]
    that is [null] or [undefined]), [Success (Some f)] a folder id whose
    path, [join(foldersDir, f + '.json')], addresses an existing record
    file. The id is kept as the request gives it. *)
Definition target (body : json) (st : Storage) : Response (option string) :=
  match Json.get body "folderId" with
  | None | Some JNull => Success None
  | Some (JStr folderId) =>
      if JS.startsWith folderId "folder_" then
        match Path.recordFile folderId with
        | Path.File file =>
            match folders st !! file with
            | Some _ => Success (Some folderId)
            | None => Failure 404 "Target folder not found"
            end
        | Path.Missing | Path.Outside => Failure 404 "Target folder not found"
        end
      else Failure 400 "Invalid folder ID"
  | Some _ => Failure 400 "Invalid folder ID"
  end.

(** [PUT /api/documents/[id]/move]; the answer carries the document's new
    metadata. *)
Definition PUT (now : string) (documentId : string) (body : json) (st : Storage)
    : Response Metadata * Storage :=
  if negb (JS.nonempty documentId) || negb (JS.startsWith documentId "doc_")
  then (Failure 400 "Invalid document ID", st)
  else if invalid_body body then (Failure 400 "Invalid request body", st)
  else
    match target body st with
    | Failure status error => (Failure status error, st)
    | Success folderId =>
        match metadata st !! documentId with
        | None => (Failure 404 "Document not found", st)
        | Some metadata =>
            let oldFolderId := meta_folderId metadata in
            let metadata' :=
              mkMetadata (meta_id metadata) (meta_title metadata)
                (meta_createdAt metadata) now (meta_size metadata)
                (meta_type metadata) folderId in
            let st1 := with_metadata (insert documentId metadata') st in
            (Success metadata', updateFolderCounts now oldFolderId folderId st1)
        end
    end.

End Move.

(** ** Vocabulary of the statements about previews *)

Module PreviewSpec.
Import Preview.



(** The text lines of the preview of a document, as they are shown. *)
Definition previewTexts (document : json) : option (list string) :=
  match extractStructuredText document with
  | Some lines => Some (map shown (previewElements lines))
  | None => None
  end.

Definition documentOf (dataStream : string) : json :=
  JObj [("body", JObj [("dataStream", JStr dataStream)])].



(** A short word followed by a word of 44 letters. *)
Definition shortThenLong : json :=
  documentOf ("hi " +:+ JS.repeat_char "x" 44).


End PreviewSpec.

(** ** Vocabulary of the statements about the document store *)

Module DocumentSpec.

(** The metadata of [documentId] records the length of the compact
    serialisation of the whole stored record, which is longer than the
    serialisation of the content alone. *)
Definition size_recorded (documentId : string) (st : Storage) : Prop :=
  exists d m,
    documents st !! documentId = Some d /\
    metadata st !! documentId = Some m /\
    meta_size m = String.length (Json.stringify (documentJSON d)) /\
    String.length (Json.stringify (doc_content d)) < meta_size m.

(** The reading of the design document: the size is the length of the
    serialised content. *)
Definition size_is_content_length (documentId : string) (st : Storage) : Prop :=
  exists d m,
    documents st !! documentId = Some d /\
    metadata st !! documentId = Some m /\
    meta_size m = String.length (Json.stringify (doc_content d)).

(** A looser reading: the size is the length of the content file as it is
    written, with its indentation. *)
Definition size_is_file_length (documentId : string) (st : Storage) : Prop :=
  exists d m,
    documents st !! documentId = Some d /\
    metadata st !! documentId = Some m /\
    meta_size m
    = String.length (Json.stringifyIndented EmptyString (documentJSON d)).

End DocumentSpec.

(** ** A small storage used by the examples *)

Module Scenario.

Definition now : string := "2025-01-01T00:00:00.000Z".
Definition later : string := "2025-01-02T00:00:00.000Z".
Definition timestamp : Z := 1735689600000.
Definition timestamp' : Z := 1735776000000.

Definition empty : Storage := mkStorage ∅ ∅ ∅ ∅.

Definition report : string := "doc_1735689600000_abc123".

(** The storage after [POST /api/documents] with the title Report and a
    one-line content. *)
Definition withReport : Storage :=
  (Documents.POST now timestamp "abc123"
     (JObj [("title", JStr "Report");
            ("content", PreviewSpec.documentOf "Quarterly figures")]) empty).2.

End Scenario.

(** ** Vocabulary of the statements about folders *)

Module FolderSpec.

(** The cached counts of all folder records agree with the metadata
    records. *)
Definition counts_consistent (st : Storage) : Prop :=
  forall file f,
    folders st !! file = Some f ->
    folder_documentCount f = length (Folders.memberDocuments (folder_id f) st).

(** The folder record [f] with its count set to [n] at time [now]. *)
Definition recounted (now : string) (n : nat) (f : FolderData) : FolderData :=
  mkFolderData (folder_id f) (folder_name f) (folder_parentFolderId f)
    (folder_createdAt f) now n.

(** The documents of a folder, as the design document has them: the
    metadata files whose record names the folder as its folderId. *)
Definition members (st : Storage) (folderId : string) : gmap string Metadata :=
  filter (fun entry => meta_folderId entry.2 = Some folderId) (metadata st).

(** The live document count of a folder. *)
Definition liveCount (st : Storage) (folderId : string) : nat :=
  size (members st folderId).

End FolderSpec.

(** ** Sequences of requests *)

Module Requests.

Inductive Request : Type :=
| DocumentPOST (now : string) (timestamp : Z) (randomString : string) (body : json)
| DocumentPUT (now : string) (timestamp : Z) (documentId : string) (body : json)
| DocumentDELETE (documentId : string)
| MovePUT (now : string) (documentId : string) (body : json)
| FolderPOST (now : string) (timestamp : Z) (randomString : string) (body : json)
| FolderGET (now : string) (folderId : string)
| FolderPUT (now : string) (folderId : string) (body : json)
| FolderDELETE (fuel : nat) (folderId : string)
| PreviewUrl (now : Z) (documentId : string).

(** The requests whose handler reaches a call of [generatePreview]. *)
Definition callsGeneratePreview (r : Request) : bool :=
  match r with
  | DocumentPOST _ _ _ _ => true
  | DocumentPUT _ _ _ body => Json.truthy_opt (Json.get body "content")
  | _ => false
  end.

(** The storage a request leaves; [None] when a folder deletion does not
    end. *)
Definition run (r : Request) (st : Storage) : option Storage :=
  match r with
  | DocumentPOST now timestamp randomString body =>
      Some (Documents.POST now timestamp randomString body st).2
  | DocumentPUT now timestamp documentId body =>
      Some (Documents.PUT now timestamp documentId body st).2
  | DocumentDELETE documentId => Some (Documents.DELETE documentId st).2
  | MovePUT now documentId body => Some (Move.PUT now documentId body st).2
  | FolderPOST now timestamp randomString body =>
      Some (Folders.POST now timestamp randomString body st).2
  | FolderGET now folderId => Some (Folders.GET now folderId st).2
  | FolderPUT now folderId body => Some (Folders.PUT now folderId body st).2
  | FolderDELETE fuel folderId =>
      match Folders.DELETE fuel folderId st with
      | Some (_, st', _) => Some st'
      | None => None
      end
  | PreviewUrl now documentId => Some (Preview.getPreviewUrl now documentId st).2
  end.

Fixpoint runAll (rs : list Request) (st : Storage) : option Storage :=
  match rs with
  | [] => Some st
  | r :: rest =>
      match run r st with
      | Some st' => runAll rest st'
      | None => None
      end
  end.

End Requests.

(** ** More storages used by the examples *)

Module Shelf.

Definition folderA : FolderData :=
  mkFolderData "folder_a" "Notes" None Scenario.now Scenario.now 1.
Definition folderB : FolderData :=
  mkFolderData "folder_b" "Journal" None Scenario.now Scenario.now 0.

Definition doc (id title : string) : DocumentData :=
  mkDocumentData id title (PreviewSpec.documentOf title) Scenario.now Scenario.now.

Definition meta (id title : string) (folderId : option string) : Metadata :=
  mkMetadata id title Scenario.now Scenario.now (Documents.sizeOf (doc id title))
    "document" folderId.

(** Two root folders; [doc_1] lies in the first, [doc_2] at the root. *)
Definition start : Storage :=
  mkStorage
    (<["doc_1" := doc "doc_1" "One"]> (<["doc_2" := doc "doc_2" "Two"]> ∅))
    (<["doc_1" := meta "doc_1" "One" (Some "folder_a")]>
       (<["doc_2" := meta "doc_2" "Two" None]> ∅))
    (<["folder_a" := folderA]> (<["folder_b" := folderB]> ∅))
    ∅.

Definition toFolderB : json := JObj [("folderId", JStr "folder_b")].

(** [doc_1] is deleted, then [doc_2] is moved into the second folder. *)
Definition afterDeleteAndMove : Storage :=
  (Move.PUT Scenario.later "doc_2" toFolderB
     (Documents.DELETE "doc_1" start).2).2.

End Shelf.

(** ** Vocabulary of the statements about cascading deletion *)

Module Cascade.

(** [file] is the record of a direct child of the folder [parent]. *)
Definition child_of (st : Storage) (parent file : string) : Prop :=
  exists f, folders st !! file = Some f /\ folder_parentFolderId f = Some parent.



(** Every record carries the id its file is named after. *)
Definition ids_match_files (st : Storage) : Prop :=
  map_Forall (fun file f => folder_id f = file) (folders st) /\
  map_Forall (fun file m => meta_id m = file) (metadata st).


(** In the sequence [t] of unlinks, the record of a folder goes after the
    records of the folders that were its children in [st] and after the
    metadata and content files of the documents that lay in it. *)
Definition children_first (st : Storage) (t : list Folders.Unlink) : Prop :=
  forall t1 file t2,
    t = t1 ++ Folders.UnlinkFolder file :: t2 ->
    (forall c, child_of st file c -> Folders.UnlinkFolder c ∈ t1) /\
    (forall d m, metadata st !! d = Some m -> meta_folderId m = Some file ->
       Folders.UnlinkMetadata d ∈ t1 /\
       (is_Some (documents st !! meta_id m) ->
        Folders.UnlinkDocument (meta_id m) ∈ t1)).

(** What a run of the deletion helpers from [st] to [st'] with the unlinks
    [t] satisfies: files are only removed, the removed files are the logged
    ones, a removed metadata file has lost its content file, and children
    go first. *)
Record run (st st' : Storage) (t : list Folders.Unlink) : Prop := mkRun {
  run_documents : documents st' ⊆ documents st;
  run_metadata : metadata st' ⊆ metadata st;
  run_folders : folders st' ⊆ folders st;
  run_logged_folder :
    forall k, is_Some (folders st !! k) -> folders st' !! k = None ->
      Folders.UnlinkFolder k ∈ t;
  run_logged_metadata :
    forall d, is_Some (metadata st !! d) -> metadata st' !! d = None ->
      Folders.UnlinkMetadata d ∈ t;
  run_logged_document :
    forall d, is_Some (documents st !! d) -> documents st' !! d = None ->
      Folders.UnlinkDocument d ∈ t;
  run_unlinked_folder :
    forall k, Folders.UnlinkFolder k ∈ t -> folders st' !! k = None;
  run_unlinked_metadata :
    forall d, Folders.UnlinkMetadata d ∈ t -> metadata st' !! d = None;
  run_content :
    forall d m, metadata st !! d = Some m -> metadata st' !! d = None ->
      documents st' !! meta_id m = None;
  run_order : children_first st t
}.




(** A folder with two documents and one subfolder that holds a third. *)
Definition tree : Storage :=
  mkStorage
    (<["doc_1" := Shelf.doc "doc_1" "One"]>
       (<["doc_2" := Shelf.doc "doc_2" "Two"]>
          (<["doc_3" := Shelf.doc "doc_3" "Three"]> ∅)))
    (<["doc_1" := Shelf.meta "doc_1" "One" (Some "folder_a")]>
       (<["doc_2" := Shelf.meta "doc_2" "Two" (Some "folder_a")]>
          (<["doc_3" := Shelf.meta "doc_3" "Three" (Some "folder_c")]> ∅)))
    (<["folder_a" := mkFolderData "folder_a" "Notes" None Scenario.now Scenario.now 2]>
       (<["folder_c" :=
            mkFolderData "folder_c" "Drafts" (Some "folder_a") Scenario.now
              Scenario.now 1]> ∅))
    ∅.


(** A folder that is its own parent: what [POST /api/folders] leaves when
    the request names as parent the id the route goes on to generate. *)
Definition loopId : string := "folder_1735689600000_abc123".

Definition loop : Storage :=
  mkStorage ∅ ∅
    {[loopId := mkFolderData loopId "Notes" (Some loopId) Scenario.now Scenario.now 0]}
    ∅.

End Cascade.

(** ** More string primitives *)

Module JSSearch.

(** [s.includes(p)] *)
Fixpoint includes (s p : string) : bool :=
  String.prefix p s ||
  match s with
  | EmptyString => false
  | String _ r => includes r p
  end.

(** [s.endsWith(p)] *)
Fixpoint endsWith (s p : string) : bool :=
  String.eqb s p ||
  match s with
  | EmptyString => false
  | String _ r => endsWith r p
  end.

Fixpoint drop (n : nat) (s : string) : string :=
  match n, s with
  | S k, String _ r => drop k r
  | _, _ => s
  end.

(** [s.replace(p, '')] for a string pattern: the first occurrence of [p]
    is removed. *)
Fixpoint removeFirst (s p : string) : string :=
  if String.prefix p s then drop (String.length p) s
  else
    match s with
    | EmptyString => EmptyString
    | String c r => String c (removeFirst r p)
    end.

End JSSearch.

(** ** Serving previews ([/api/previews/[filename]]) *)

Module PreviewFiles.

(** [!filename || filename.includes('..') ||
     (!filename.endsWith('.png') && !filename.endsWith('.svg'))] *)
Definition invalid_filename (filename : string) : bool :=
  negb (JS.nonempty filename) || JSSearch.includes filename ".." ||
  (negb (JSSearch.endsWith filename ".png") && negb (JSSearch.endsWith filename ".svg")).

(** The body and the three headers of a served preview. *)
Record Served := mkServed {
  served_body : string;
  served_contentType : string;
  served_cacheControl : string;
  served_etag : string
}.

(** [GET /api/previews/[filename]] at clock reading [now]. *)
Definition GET (now : Z) (filename : string) (st : Storage) : Response Served :=
  if invalid_filename filename then Failure 400 "Invalid filename"
  else
    match previews st !! filename with
    | None => Failure 404 "Preview not found"
    | Some file =>
        Success
          (mkServed (preview_data file)
             (if JSSearch.endsWith filename ".svg" then "image/svg+xml" else "image/png")
             "public, max-age=3600"
             (String Json.dquote (JS.of_Z now +:+ String Json.dquote EmptyString)))
    end.

End PreviewFiles.

(** ** Generating the missing previews ([/api/generate-previews]) *)

Module PreviewBatch.

Record Stats := mkStats {
  total : nat;
  generated : nat;
  skipped : nat;
  errors : nat
}.

(** [file.replace('.json', '')] for the file of the listing with the stem
    [file]. *)
Definition documentIdOf (file : string) : string :=
  JSSearch.removeFirst (file +:+ ".json") ".json".

(** One turn of [for (const file of documentFiles)]: the state is the
    storage and the three counters. Whatever is thrown inside the turn is
    caught and counted as an error: a file that cannot be read, the
    [TypeError] of the generator on a dataStream that is not a string, and
    the [TypeError] of its first property read, [document.body], when the
    stored content is [null]. *)
Definition step (now : Z) (acc : Storage * (nat * nat * nat)) (file : string)
    : Storage * (nat * nat * nat) :=
  let '(st, (generated, skipped, errors)) := acc in
  let documentId := documentIdOf file in
  match previews st !! (documentId +:+ ".png") with
  | Some _ => (st, (generated, S skipped, errors))
  | None =>
      match documents st !! file with
      | None => (st, (generated, skipped, S errors))
      | Some documentData =>
          match doc_content documentData with
          | JNull => (st, (generated, skipped, S errors))
          | content =>
              match Preview.generatePreview now documentId content st with
              | Some (_, st') => (st', (S generated, skipped, errors))
              | None => (st, (generated, skipped, S errors))
              end
          end
      end
  end.

(** The answer of the route: the message of a missing documents directory,
    or the statistics of the run. *)
Inductive Answer : Type :=
| NoDocumentsDirectory
| Complete (stats : Stats).

(** [POST /api/generate-previews]; [documentsDir] tells whether
    [storage/documents] exists, which the storage does not record. *)
Definition POST (now : Z) (documentsDir : bool) (st : Storage) : Answer * Storage :=
  if negb documentsDir then (NoDocumentsDirectory, st)
  else
    let documentFiles := readdir (documents st) in
    let '(st', (generated, skipped, errors)) :=
      fold_left (step now) documentFiles (st, (0, 0, 0)) in
    (Complete (mkStats (length documentFiles) generated skipped errors), st').

End PreviewBatch.

(** ** Reading documents ([GET /api/documents/[id]] and [GET /api/documents]) *)

Module DocumentRead.

(** [GET /api/documents/[id]] *)
Definition GET (documentId : string) (st : Storage) : Response DocumentData :=
  if negb (JS.nonempty documentId) then Failure 400 "Invalid document ID"
  else
    match documents st !! documentId with
    | None => Failure 404 "Document not found"
    | Some documentData => Success documentData
    end.

(** [array.sort(compare)] for a comparator that is consistent: the sort is
    stable, so it is the one insertion sort computes. *)
Fixpoint insertBy {A : Type} (compare : A -> A -> Z) (x : A) (l : list A) : list A :=
  match l with
  | [] => [x]
  | y :: rest =>
      if (compare x y <=? 0)%Z then x :: l else y :: insertBy compare x rest
  end.

Definition sortBy {A : Type} (compare : A -> A -> Z) (l : list A) : list A :=
  foldr (insertBy compare) [] l.

(** An entry of the listing. *)
Record Summary := mkSummary {
  summary_id : string;
  summary_title : string;
  summary_createdAt : string;
  summary_modifiedAt : string;
  summary_size : nat;
  summary_type : string;
  summary_folderId : option string;
  summary_previewUrl : string;
  summary_activity : string;
  summary_date : string
}.

Section Dates.

(** [new Date(s).getTime()] and [new Date(s).toLocaleDateString()], on the
    timestamps the routes store (valid dates). *)
Variable getTime : string -> Z.
Variable toLocaleDateString : string -> string.

Definition summaryOf (now : Z) (st : Storage) (metadata : Metadata) : Summary :=
  mkSummary (meta_id metadata) (meta_title metadata) (meta_createdAt metadata)
    (meta_modifiedAt metadata) (meta_size metadata) (meta_type metadata)
    (meta_folderId metadata)
    (Preview.getPreviewUrl now (meta_id metadata) st).1
    "You created" (toLocaleDateString (meta_modifiedAt metadata)).

(** [(a, b) => new Date(b.modifiedAt).getTime() - new Date(a.modifiedAt).getTime()] *)
Definition newestFirst (a b : Summary) : Z :=
  (getTime (summary_modifiedAt b) - getTime (summary_modifiedAt a))%Z.

(** [GET /api/documents]: the listing, newest first. *)
Definition LIST (now : Z) (st : Storage) : list Summary :=
  sortBy newestFirst (map (summaryOf now st) (map_to_list (metadata st)).*2).

End Dates.

End DocumentRead.

(** ** Listing the root folders ([GET /api/folders]) *)

Module FolderList.

(** [createDefaultFolders()]; the two ids are generated at the reading
    [timestamp] of the clock with the random strings [r1] and [r2]. *)
Definition createDefaultFolders (now : string) (timestamp : Z) (r1 r2 : string)
    (st : Storage) : Storage :=
  fold_left
    (fun st entry =>
       let folderId := Folders.generateFolderId timestamp entry.2 in
       with_folders
         (insert folderId (mkFolderData folderId entry.1 None now now 0)) st)
    [("Notes", r1); ("Journal", r2)] st.

(** The entry built from a folder file; [folderData.parentFolderId || null]
    turns an empty parent id into [null]. *)
Definition entryOf (folderData : FolderData) : FolderData :=
  mkFolderData (folder_id folderData) (folder_name folderData)
    (match folder_parentFolderId folderData with
     | Some parent => if JS.nonempty parent then Some parent else None
     | None => None
     end)
    (folder_createdAt folderData) (folder_modifiedAt folderData)
    (folder_documentCount folderData).

(** [!folder.parentFolderId]: the parent is [null] or the empty string. *)
Definition is_root (f : FolderData) : bool :=
  match folder_parentFolderId f with
  | Some parent => negb (JS.nonempty parent)
  | None => true
  end.

Section Dates.

Variable getTime : string -> Z.

(** [(a, b) => new Date(a.createdAt).getTime() - new Date(b.createdAt).getTime()] *)
Definition oldestFirst (a b : FolderData) : Z :=
  (getTime (folder_createdAt a) - getTime (folder_createdAt b))%Z.

(** [GET /api/folders]; [foldersDir] tells whether [storage/folders]
    exists, which the storage does not record. *)
Definition GET (now : string) (timestamp : Z) (r1 r2 : string) (foldersDir : bool)
    (st : Storage) : list FolderData * Storage :=
  let st' := if foldersDir then st else createDefaultFolders now timestamp r1 r2 st in
  (DocumentRead.sortBy oldestFirst
     (filter (fun f => is_root f = true) (map entryOf (map_to_list (folders st')).*2)),
   st').

End Dates.

End FolderList.

(** * Properties *)

#[local] Arguments String.append !_ _ / : simpl nomatch.

(** ** Strings *)

Section StringFacts.

Lemma length_append (a b : string) :
  String.length (a +:+ b) = String.length a + String.length b.
Proof. induction a as [|c a IH]; simpl; [reflexivity | now rewrite IH]. Qed.

Lemma append_assoc (a b c : string) : (a +:+ b) +:+ c = a +:+ (b +:+ c).
Proof. induction a as [|x a IH]; simpl; [reflexivity | now rewrite IH]. Qed.

Lemma length_substring0 (n : nat) (s : string) :
  String.length (JS.substring0 n s) = Nat.min n (String.length s).
Proof.
  unfold JS.substring0. revert s.
  induction n as [|n IH]; intros [|c s]; simpl; try reflexivity.
  now rewrite IH.
Qed.

Lemma substring0_short (n : nat) (s : string) :
  String.length s <= n -> JS.substring0 n s = s.
Proof.
  unfold JS.substring0. revert s.
  induction n as [|n IH]; intros [|c s]; simpl; intros H; try reflexivity; try lia.
  f_equal. apply IH. lia.
Qed.

Lemma all_chars_substring0 (p : ascii -> bool) (n : nat) (s : string) :
  JS.all_chars p s = true -> JS.all_chars p (JS.substring0 n s) = true.
Proof.
  unfold JS.substring0. revert s.
  induction n as [|n IH]; intros [|c s]; simpl; try reflexivity.
  intros [Hc Hs]%andb_true_iff. rewrite Hc. simpl. now apply IH.
Qed.

Lemma first_char_substring0 (n : nat) (s : string) (c : ascii) :
  JS.first_char (JS.substring0 n s) = Some c -> JS.first_char s = Some c.
Proof. destruct n, s; simpl; intros H; now try discriminate. Qed.

Lemma all_chars_remove (p : ascii -> bool) (s : string) :
  JS.all_chars (fun c => negb (p c)) (JS.remove_chars p s) = true.
Proof.
  induction s as [|c s IH]; simpl; [reflexivity |].
  destruct (p c) eqn:E; simpl; [assumption | now rewrite E].
Qed.

Lemma all_chars_trimStart (p : ascii -> bool) (s : string) :
  JS.all_chars p s = true -> JS.all_chars p (JS.trimStart s) = true.
Proof.
  induction s as [|c s IH]; simpl; [reflexivity |].
  intros H. destruct (JS.is_space c); [| exact H].
  apply andb_true_iff in H as [_ H]. now apply IH.
Qed.

Lemma all_chars_trimEnd (p : ascii -> bool) (s : string) :
  JS.all_chars p s = true -> JS.all_chars p (JS.trimEnd s) = true.
Proof.
  induction s as [|c s IH]; simpl; [reflexivity |].
  intros [Hc Hs]%andb_true_iff. specialize (IH Hs).
  destruct (JS.trimEnd s) as [|c' r'].
  - destruct (JS.is_space c); simpl; [reflexivity | now rewrite Hc].
  - simpl in *. now rewrite Hc.
Qed.

Lemma trimStart_no_leading (s : string) : no_leading_space (JS.trimStart s).
Proof.
  induction s as [|c s IH]; intros x; simpl; [discriminate |].
  destruct (JS.is_space c) eqn:E; [apply IH |].
  simpl. intros [= <-]. exact E.
Qed.

Lemma first_char_trimEnd (s : string) (c : ascii) :
  JS.first_char (JS.trimEnd s) = Some c -> JS.first_char s = Some c.
Proof.
  destruct s as [|a s]; simpl; [discriminate |].
  destruct (JS.trimEnd s); [destruct (JS.is_space a) |]; simpl; now try discriminate.
Qed.

Lemma trimEnd_no_trailing (s : string) : no_trailing_space (JS.trimEnd s).
Proof.
  induction s as [|a s IH]; intros x; simpl; [discriminate |].
  destruct (JS.trimEnd s) as [|b r] eqn:E.
  - destruct (JS.is_space a) eqn:Ea; simpl; [discriminate |].
    intros [= <-]. exact Ea.
  - intros H. apply IH. exact H.
Qed.

Lemma suffix_differs (a b x y : string) :
  String.length x = String.length y -> x <> y -> a +:+ x <> b +:+ y.
Proof.
  intros Hlen Hne. revert b.
  induction a as [|c a IH]; intros [|d b]; simpl.
  - exact Hne.
  - intros H. apply (f_equal String.length) in H.
    rewrite ?length_append in H. simpl in H. rewrite ?length_append in H. lia.
  - intros H. apply (f_equal String.length) in H.
    rewrite ?length_append in H. simpl in H. rewrite ?length_append in H. lia.
  - intros [= _ H]. exact (IH _ H).
Qed.

End StringFacts.

(** ** Sanitised titles and names *)

Lemma sanitize_props (max : nat) (s : string) :
  no_unsafe (sanitize max s) /\
  no_leading_space (sanitize max s) /\
  String.length (sanitize max s) <= max /\
  (no_trailing_space (sanitize max s) \/ String.length (sanitize max s) = max).
Proof.
  unfold sanitize. set (t := JS.trim (JS.remove_chars unsafe_char s)).
  repeat split.
  - apply all_chars_substring0. unfold t, JS.trim.
    apply all_chars_trimEnd, all_chars_trimStart, all_chars_remove.
  - intros c Hc. apply first_char_substring0, first_char_trimEnd in Hc.
    exact (trimStart_no_leading _ c Hc).
  - rewrite length_substring0. lia.
  - destruct (le_lt_dec (String.length t) max) as [Hle | Hgt].
    + left. rewrite substring0_short by exact Hle. apply trimEnd_no_trailing.
    + right. rewrite length_substring0. lia.
Qed.

(** C6, as amended: a sanitised document title and a sanitised folder name
    hold none of the nine unsafe characters, do not start with white space,
    are at most 100 and 50 characters long, and do not end with white space
    unless the cut at 100 (at 50) characters left them exactly that long. *)
Theorem sanitized_strings_amended (s : string) :
  (no_unsafe (sanitizeTitle s) /\ no_leading_space (sanitizeTitle s) /\
   String.length (sanitizeTitle s) <= 100 /\
   (no_trailing_space (sanitizeTitle s) \/ String.length (sanitizeTitle s) = 100)) /\
  (no_unsafe (sanitizeName s) /\ no_leading_space (sanitizeName s) /\
   String.length (sanitizeName s) <= 50 /\
   (no_trailing_space (sanitizeName s) \/ String.length (sanitizeName s) = 50)).
Proof. split; apply sanitize_props. Qed.

(** C6 fails as stated: a title of 99 letters, a space and a letter is cut
    after the space, and so is a folder name of 49 letters, a space and a
    letter. *)
Lemma sanitized_strings_counterexample :
  ~ clean 100 (sanitizeTitle (JS.repeat_char "a" 99 +:+ " b")) /\
  ~ clean 50 (sanitizeName (JS.repeat_char "a" 49 +:+ " b")).
Proof.
  split; intros (_ & _ & H & _); specialize (H " "%char eq_refl); discriminate H.
Qed.

(** ** Preview text lines *)

Section PreviewLines.
Import Preview PreviewSpec.

Variable maxChars : nat.
Hypothesis maxChars_ge_3 : 3 <= maxChars.












End PreviewLines.

Section PreviewLayout.
Import Preview PreviewSpec.








End PreviewLayout.




(** The word-wrap loop truncates a word only when the line under
    construction is empty: after a shorter word a word of 44 letters is
    emitted whole, without an ellipsis. *)
Lemma long_word_after_short_word_is_not_truncated :
  PreviewSpec.previewTexts PreviewSpec.shortThenLong
  = Some ["hi"; JS.repeat_char "x" 44].
Proof. reflexivity. Qed.

(** ** Document store *)

Section DocumentStore.

Lemma documents_generatePreviewInBackground now id doc st :
  documents (Preview.generatePreviewInBackground now id doc st) = documents st.
Proof.
  unfold Preview.generatePreviewInBackground, Preview.generatePreview.
  destruct (Preview.extractStructuredText doc); reflexivity.
Qed.

Lemma metadata_generatePreviewInBackground now id doc st :
  metadata (Preview.generatePreviewInBackground now id doc st) = metadata st.
Proof.
  unfold Preview.generatePreviewInBackground, Preview.generatePreview.
  destruct (Preview.extractStructuredText doc); reflexivity.
Qed.

Lemma content_shorter_than_record (d : DocumentData) :
  String.length (Json.stringify (doc_content d)) < Documents.sizeOf d.
Proof.
  unfold Documents.sizeOf, documentJSON.
  cbn [Json.stringify map String.concat fst snd].
  rewrite !length_append. simpl. lia.
Qed.

Lemma size_recorded_intro (id : string) (d : DocumentData) (m : Metadata)
    (st : Storage) :
  documents st !! id = Some d -> metadata st !! id = Some m ->
  meta_size m = Documents.sizeOf d -> DocumentSpec.size_recorded id st.
Proof.
  intros Hd Hm Hs. exists d, m. repeat split; try assumption.
  rewrite Hs. apply content_shorter_than_record.
Qed.

End DocumentStore.

(** C5, as amended: every Create and every Update that succeeds leaves, for
    the document it wrote, a metadata record whose size is the length of
    the compact JSON serialisation of the whole stored document record (id,
    title, content and both timestamps), which is more than the length of
    the serialised content; a request that is refused writes nothing. *)
Theorem size_is_record_length_amended (now : string) (timestamp : Z)
    (randomString documentId : string) (body : json) (st : Storage) :
  match Documents.POST now timestamp randomString body st with
  | (Success r, st') =>
      DocumentSpec.size_recorded (Documents.created_documentId r) st'
  | (Failure _ _, st') => st' = st
  end /\
  match Documents.PUT now timestamp documentId body st with
  | (Success r, st') => DocumentSpec.size_recorded documentId st'
  | (Failure _ _, st') => st' = st
  end.
Proof.
  split.
  - unfold Documents.POST.
    destruct (invalid_body body); [reflexivity |].
    destruct (Documents.invalid_title body); [reflexivity |].
    cbv zeta. cbn [Documents.created_documentId].
    eapply size_recorded_intro.
    + rewrite documents_generatePreviewInBackground. cbn.
      apply lookup_insert_eq.
    + rewrite metadata_generatePreviewInBackground. cbn.
      apply lookup_insert_eq.
    + reflexivity.
  - unfold Documents.PUT.
    destruct (negb (JS.nonempty documentId)); [reflexivity |].
    destruct (invalid_body body); [reflexivity |].
    destruct (Documents.invalid_title body); [reflexivity |].
    cbv zeta.
    destruct (documents st !! documentId) as [existing|]; [| reflexivity].
    destruct (Json.get body "content") as [c|]; [destruct (Json.truthy c) |];
      (eapply size_recorded_intro;
       [ rewrite ?documents_generatePreviewInBackground; cbn;
         apply lookup_insert_eq
       | rewrite ?metadata_generatePreviewInBackground; cbn;
         apply lookup_insert_eq
       | reflexivity ]).
Qed.

(** C5 fails as stated: the document created with the title Report has a
    content whose serialisation is 43 characters long, and a recorded size
    of 183, which is not the length of the indented file either; after an
    update of the title alone the size follows the title. *)
Lemma size_is_content_length_counterexample :
  ~ DocumentSpec.size_is_content_length Scenario.report Scenario.withReport /\
  ~ DocumentSpec.size_is_file_length Scenario.report Scenario.withReport /\
  ~ DocumentSpec.size_is_content_length Scenario.report
      (Documents.PUT Scenario.later Scenario.timestamp' Scenario.report
         (JObj [("title", JStr "New")]) Scenario.withReport).2.
Proof.
  repeat split; intros (d & m & Hd & Hm & Hs); vm_compute in Hd, Hm;
    injection Hd as <-; injection Hm as <-; vm_compute in Hs; discriminate Hs.
Qed.

Lemma sanitizedTitle_absent (body : json) :
  Json.truthy_opt (Json.get body "title") = false ->
  Documents.sanitizedTitle body = "Untitled Document".
Proof.
  unfold Documents.sanitizedTitle.
  destruct (Json.get body "title") as [[| | |s| |]|]; try reflexivity.
  simpl. now intros ->.
Qed.

(** What the update route stores for a request it accepts: the title the
    body yields and the reading of the clock in both records, and the prior
    content when the body brings none. *)
Lemma PUT_stores (now : string) (timestamp : Z) (documentId : string)
    (body : json) (st : Storage) (d : DocumentData) :
  JS.nonempty documentId = true ->
  invalid_body body = false ->
  Documents.invalid_title body = false ->
  documents st !! documentId = Some d ->
  exists st' d' m',
    Documents.PUT now timestamp documentId body st
    = (Success (Documents.mkUpdated documentId (Documents.sanitizedTitle body) now), st') /\
    documents st' !! documentId = Some d' /\
    metadata st' !! documentId = Some m' /\
    doc_title d' = Documents.sanitizedTitle body /\
    meta_title m' = Documents.sanitizedTitle body /\
    doc_modifiedAt d' = now /\ meta_modifiedAt m' = now /\
    (Json.truthy_opt (Json.get body "content") = false ->
     doc_content d' = doc_content d).
Proof.
  intros Hid Hb Ht Hd. unfold Documents.PUT.
  rewrite Hid, Hb, Ht, Hd. cbn [negb]. cbv zeta.
  destruct (Json.get body "content") as [c|]; [destruct (Json.truthy c) eqn:Ec |];
    cbn [Json.truthy_opt]; rewrite ?Ec;
    eexists _, _, _;
    (split; [reflexivity |]);
    rewrite ?documents_generatePreviewInBackground,
            ?metadata_generatePreviewInBackground; cbn;
    rewrite !lookup_insert_eq; repeat split; congruence.
Qed.

(** C2, the defect: an update that brings a content and no title overwrites
    the title Report with the default of the create route, in the content
    record and in the metadata record. *)
Theorem update_without_title_resets_title :
  let st' :=
    (Documents.PUT Scenario.later Scenario.timestamp' Scenario.report
       (JObj [("content", PreviewSpec.documentOf "New text")])
       Scenario.withReport).2 in
  doc_title <$> documents Scenario.withReport !! Scenario.report = Some "Report" /\
  doc_title <$> documents st' !! Scenario.report = Some "Untitled Document" /\
  meta_title <$> metadata st' !! Scenario.report = Some "Untitled Document".
Proof. vm_compute. repeat split. Qed.

(** A title that is provided and empties under sanitisation is stored as the
    empty string, not as the default. *)
Lemma update_with_unsafe_title_stores_empty_title :
  let st' :=
    (Documents.PUT Scenario.later Scenario.timestamp' Scenario.report
       (JObj [("title", JStr "???")]) Scenario.withReport).2 in
  doc_title <$> documents st' !! Scenario.report = Some EmptyString /\
  meta_title <$> metadata st' !! Scenario.report = Some EmptyString.
Proof. vm_compute. repeat split. Qed.

(** The delete route looks for the preview under the suffix [.png]; the
    files the generator writes are out of its reach. *)
Lemma DELETE_keeps_svg (documentId documentId' : string) (st : Storage) :
  previews (Documents.DELETE documentId st).2 !! Preview.previewFileName documentId'
  = previews st !! Preview.previewFileName documentId'.
Proof.
  unfold Documents.DELETE.
  destruct (negb (JS.nonempty documentId)); [reflexivity |].
  destruct (documents st !! documentId); [| reflexivity].
  cbv zeta.
  destruct (metadata _ !! documentId); [| reflexivity].
  cbn. destruct (previews st !! (documentId +:+ ".png")); [| reflexivity].
  cbn. apply lookup_delete_ne.
  unfold Preview.previewFileName. apply suffix_differs; [reflexivity | discriminate].
Qed.

(** C4, the defect: the preview that [generatePreview] wrote for the
    document when it was created is still in [storage/previews] after the
    document has been deleted, its content and metadata files being gone. *)
Theorem delete_leaves_generated_preview :
  let st' := (Documents.DELETE Scenario.report Scenario.withReport).2 in
  (Documents.DELETE Scenario.report Scenario.withReport).1 = Success Scenario.report /\
  documents st' !! Scenario.report = None /\
  metadata st' !! Scenario.report = None /\
  is_Some (previews Scenario.withReport !! Preview.previewFileName Scenario.report) /\
  previews st' !! Preview.previewFileName Scenario.report
  = previews Scenario.withReport !! Preview.previewFileName Scenario.report.
Proof.
  cbv zeta. split; [reflexivity |]. split; [reflexivity |].
  split; [reflexivity |]. split; [| apply DELETE_keeps_svg].
  vm_compute. eexists. reflexivity.
Qed.

(** ** Move coordinator *)

Section MoveFacts.

Lemma startsWith_nonempty (s p : string) :
  JS.nonempty p = true -> JS.startsWith s p = true -> JS.nonempty s = true.
Proof. destruct p, s; simpl; congruence. Qed.

Lemma segments_plain (id cur : string) :
  Path.plain id = true -> Path.segments id cur = [cur +:+ id].
Proof.
  unfold Path.plain. revert cur.
  induction id as [|c id IH]; intros cur H; cbn [Path.segments].
  - f_equal. clear H. induction cur as [|x cur IH]; simpl; [reflexivity | now rewrite <- IH].
  - simpl in H. apply andb_true_iff in H as [Hc H]. apply negb_true_iff in Hc.
    rewrite Hc, (IH _ H), append_assoc. reflexivity.
Qed.

Lemma recordFile_plain (id : string) :
  Path.plain id = true -> Path.recordFile id = Path.File id.
Proof.
  intros H. unfold Path.recordFile. now rewrite (segments_plain id EmptyString H).
Qed.

Lemma lookup_writeCount now counts st folderId k :
  Path.plain folderId = true ->
  folders (Move.writeCount now counts st folderId) !! k
  = if decide (folderId = k)
    then FolderSpec.recounted now (default 0 (counts !! folderId)) <$> folders st !! k
    else folders st !! k.
Proof.
  intros Hplain. unfold Move.writeCount. rewrite (recordFile_plain _ Hplain).
  destruct (folders st !! folderId) as [f|] eqn:E; cbn.
  - rewrite lookup_insert. destruct (decide (folderId = k)) as [<-|]; [| reflexivity].
    now rewrite E.
  - destruct (decide (folderId = k)) as [<-|]; [| reflexivity]. now rewrite E.
Qed.

Lemma writeCount_frame now counts st folderId :
  documents (Move.writeCount now counts st folderId) = documents st /\
  metadata (Move.writeCount now counts st folderId) = metadata st /\
  previews (Move.writeCount now counts st folderId) = previews st.
Proof.
  unfold Move.writeCount.
  destruct (Path.recordFile folderId) as [file| |]; [| now repeat split ..].
  destruct (folders st !! file); now repeat split.
Qed.

Lemma writeCounts_frame now counts l st :
  documents (fold_left (Move.writeCount now counts) l st) = documents st /\
  metadata (fold_left (Move.writeCount now counts) l st) = metadata st /\
  previews (fold_left (Move.writeCount now counts) l st) = previews st.
Proof.
  revert st. induction l as [|a l IH]; intros st; cbn [fold_left]; [now repeat split |].
  destruct (IH (Move.writeCount now counts st a)) as (-> & -> & ->).
  apply writeCount_frame.
Qed.

(** The folder records after the writes for a list of plain ids: a record
    named in the list is recounted, every other is as before, and no
    record is created. *)
Lemma lookup_writeCounts now counts l st k :
  Forall (fun id => Path.plain id = true) l ->
  folders (fold_left (Move.writeCount now counts) l st) !! k
  = if decide (k ∈ l)
    then FolderSpec.recounted now (default 0 (counts !! k)) <$> folders st !! k
    else folders st !! k.
Proof.
  intros Hl. revert st. induction Hl as [|a l Ha _ IH]; intros st; cbn [fold_left].
  - destruct (decide (k ∈ [])) as [H|]; [now apply elem_of_nil in H | reflexivity].
  - rewrite IH, (lookup_writeCount _ _ _ _ _ Ha).
    destruct (decide (a = k)) as [-> | Hne].
    + destruct (decide (k ∈ k :: l)) as [_ | Hn]; [| exfalso; apply Hn; left].
      destruct (decide (k ∈ l)); [| reflexivity].
      destruct (folders st !! k); reflexivity.
    + destruct (decide (k ∈ l)) as [Hin | Hnin].
      * destruct (decide (k ∈ a :: l)) as [_ | Hn]; [reflexivity |].
        exfalso. apply Hn. now right.
      * destruct (decide (k ∈ a :: l)) as [[Heq | Hin]%elem_of_cons | _];
          [congruence | contradiction | reflexivity].
Qed.

Lemma countStep_lookup acc m folderId :
  JS.nonempty folderId = true ->
  default 0 (Move.countStep acc m !! folderId)
  = default 0 (acc !! folderId)
    + (if decide (meta_folderId m = Some folderId) then 1 else 0).
Proof.
  intros Hne. unfold Move.countStep.
  destruct (meta_folderId m) as [g|]; [| destruct (decide _); [discriminate | lia]].
  destruct (decide (Some g = Some folderId)) as [[= ->] | Hneq].
  - rewrite Hne, lookup_insert_eq. reflexivity.
  - destruct (JS.nonempty g); [| lia].
    rewrite lookup_insert_ne by congruence. lia.
Qed.

Lemma count_fold l acc folderId :
  JS.nonempty folderId = true ->
  default 0 (fold_left Move.countStep l acc !! folderId)
  = default 0 (acc !! folderId)
    + length (filter (fun m => meta_folderId m = Some folderId) l).
Proof.
  intros Hne. revert acc.
  induction l as [|m l IH]; intros acc; cbn [fold_left]; [simpl; lia |].
  rewrite IH, countStep_lookup by exact Hne. rewrite filter_cons.
  destruct (decide (meta_folderId m = Some folderId)); simpl; lia.
Qed.

Lemma folderCounts_live st folderId :
  JS.nonempty folderId = true ->
  default 0 (Move.folderCounts st !! folderId)
  = length (Folders.memberDocuments folderId st).
Proof.
  intros Hne. unfold Move.folderCounts, Folders.memberDocuments.
  rewrite count_fold by exact Hne. now rewrite lookup_empty.
Qed.

Lemma elem_of_affected k id :
  k ∈ Move.affected id -> JS.nonempty k = true.
Proof.
  unfold Move.affected. destruct id as [g|]; [| now intros ?%elem_of_nil].
  destruct (JS.nonempty g) eqn:E; simpl; [| now intros ?%elem_of_nil].
  destruct (JS.startsWith g "folder_"); [| now intros ?%elem_of_nil].
  now intros ->%list_elem_of_singleton.
Qed.

Lemma elem_of_affected_iff k id :
  k ∈ Move.affected id <-> id = Some k /\ JS.startsWith k "folder_" = true.
Proof.
  unfold Move.affected. destruct id as [g|].
  - destruct (JS.nonempty g) eqn:Hne; cbn [andb].
    + destruct (JS.startsWith g "folder_") eqn:Hs.
      * rewrite list_elem_of_singleton. split; [now intros -> | now intros [[= ->] _]].
      * split; [now intros ?%elem_of_nil | intros [[= ->] H]; congruence].
    + split; [now intros ?%elem_of_nil |]. intros [[= ->] H].
      pose proof (startsWith_nonempty k "folder_" eq_refl H). congruence.
  - split; [now intros ?%elem_of_nil | now intros [? _]].
Qed.

Lemma memberDocuments_members folderId st :
  Folders.memberDocuments folderId st
  ≡ₚ (map_to_list (FolderSpec.members st folderId)).*2.
Proof.
  unfold Folders.memberDocuments, FolderSpec.members.
  induction (metadata st) as [|file m files Hfile IH] using map_ind.
  - now rewrite map_filter_empty, !map_to_list_empty.
  - rewrite map_to_list_insert by exact Hfile. cbn [fmap list_fmap snd].
    rewrite filter_cons.
    destruct (decide (meta_folderId m = Some folderId)) as [Hin | Hout].
    + rewrite map_filter_insert_True by exact Hin.
      rewrite map_to_list_insert by (apply map_lookup_filter_None; now left).
      cbn [fmap list_fmap snd]. now rewrite <- IH.
    + rewrite map_filter_insert_False by exact Hout.
      rewrite delete_id by exact Hfile. exact IH.
Qed.

Lemma memberDocuments_liveCount folderId st :
  length (Folders.memberDocuments folderId st) = FolderSpec.liveCount st folderId.
Proof.
  rewrite memberDocuments_members. unfold FolderSpec.liveCount.
  now rewrite length_fmap, length_map_to_list.
Qed.

Lemma liveCount_metadata folderId st st' :
  metadata st' = metadata st ->
  FolderSpec.liveCount st' folderId = FolderSpec.liveCount st folderId.
Proof. unfold FolderSpec.liveCount, FolderSpec.members. now intros ->. Qed.

Lemma updateFolderCounts_frame now old new st :
  documents (Move.updateFolderCounts now old new st) = documents st /\
  metadata (Move.updateFolderCounts now old new st) = metadata st /\
  previews (Move.updateFolderCounts now old new st) = previews st.
Proof. apply writeCounts_frame. Qed.


(** The folder records after [updateFolderCounts], for plain ids. *)
Lemma lookup_updateFolderCounts now old new st k :
  (forall id, old = Some id \/ new = Some id -> Path.plain id = true) ->
  folders (Move.updateFolderCounts now old new st) !! k
  = if decide ((old = Some k \/ new = Some k) /\ JS.startsWith k "folder_" = true)
    then FolderSpec.recounted now (FolderSpec.liveCount st k) <$> folders st !! k
    else folders st !! k.
Proof.
  intros Hplain. unfold Move.updateFolderCounts.
  rewrite lookup_writeCounts.
  - destruct (decide (k ∈ Move.affected old ++ Move.affected new)) as [Hin | Hnin].
    + assert (H : (old = Some k \/ new = Some k) /\ JS.startsWith k "folder_" = true).
      { apply elem_of_app in Hin as [[? ?]%elem_of_affected_iff | [? ?]%elem_of_affected_iff];
          auto. }
      destruct (decide _) as [_ | Hn]; [| contradiction].
      rewrite folderCounts_live, memberDocuments_liveCount; [reflexivity |].
      exact (startsWith_nonempty k "folder_" eq_refl (proj2 H)).
    + destruct (decide _) as [[[H | H] Hs] | _]; [| | reflexivity];
        exfalso; apply Hnin, elem_of_app; [left | right];
        now apply elem_of_affected_iff.
  - apply Forall_forall. intros id Hid. apply Hplain.
    apply elem_of_app in Hid as [[? _]%elem_of_affected_iff | [? _]%elem_of_affected_iff];
      auto.
Qed.

End MoveFacts.

(** C1, as amended: after a successful move in which the folder the
    document left and the folder it entered are named by ids without a
    path separator, the record of each of the two (when the id has the
    folder_ shape and the record exists) is its former record with
    documentCount set to the number of metadata records whose folderId is
    that folder and modifiedAt set to the time of the move; every other
    folder record is left as it was before the move, and no record is
    created. *)
Theorem move_recounts_affected_folders (now documentId : string) (body : json)
    (st st' : Storage) (m m' : Metadata) :
  metadata st !! documentId = Some m ->
  Move.PUT now documentId body st = (Success m', st') ->
  (forall k, meta_folderId m = Some k \/ meta_folderId m' = Some k ->
             Path.plain k = true) ->
  (forall k f,
     meta_folderId m = Some k \/ meta_folderId m' = Some k ->
     JS.startsWith k "folder_" = true ->
     folders st !! k = Some f ->
     folders st' !! k
     = Some (FolderSpec.recounted now (FolderSpec.liveCount st' k) f)) /\
  (forall k,
     meta_folderId m <> Some k /\ meta_folderId m' <> Some k \/
     JS.startsWith k "folder_" = false \/ folders st !! k = None ->
     folders st' !! k = folders st !! k).
Proof.
  intros Hm. unfold Move.PUT.
  destruct (_ || _); [discriminate |].
  destruct (invalid_body body); [discriminate |].
  destruct (Move.target body st) as [new | ? ?]; [| discriminate].
  rewrite Hm. cbv zeta. intros [= <- <-]. cbn [meta_folderId]. intros Hplain.
  set (st1 := with_metadata _ st).
  destruct (updateFolderCounts_frame now (meta_folderId m) new st1) as (_ & Hmeta & _).
  split.
  - intros k f Hk Hshape Hf.
    rewrite (lookup_updateFolderCounts _ _ _ _ _ Hplain).
    destruct (decide _) as [_ | Hn]; [| exfalso; now apply Hn].
    rewrite (liveCount_metadata _ _ _ Hmeta).
    change (folders st1) with (folders st). now rewrite Hf.
  - intros k Hk. rewrite (lookup_updateFolderCounts _ _ _ _ _ Hplain).
    change (folders st1) with (folders st).
    destruct (decide _) as [[Hin Hshape] | _]; [| reflexivity].
    destruct Hk as [[Ho Hn] | [Hs | Hnone]].
    + destruct Hin; contradiction.
    + congruence.
    + now rewrite Hnone.
Qed.

Lemma move_recounts_affected_folders_witness :
  (forall k f,
     None = Some k \/ Some "folder_b" = Some k ->
     JS.startsWith k "folder_" = true ->
     folders Shelf.start !! k = Some f ->
     folders (Move.PUT Scenario.later "doc_2" Shelf.toFolderB Shelf.start).2 !! k
     = Some (FolderSpec.recounted Scenario.later
               (FolderSpec.liveCount
                  (Move.PUT Scenario.later "doc_2" Shelf.toFolderB Shelf.start).2 k)
               f)) /\
  (forall k,
     None <> Some k /\ Some "folder_b" <> Some k \/
     JS.startsWith k "folder_" = false \/ folders Shelf.start !! k = None ->
     folders (Move.PUT Scenario.later "doc_2" Shelf.toFolderB Shelf.start).2 !! k
     = folders Shelf.start !! k).
Proof.
  apply (move_recounts_affected_folders Scenario.later "doc_2" Shelf.toFolderB
           Shelf.start _ (Shelf.meta "doc_2" "Two" None)
           (mkMetadata "doc_2" "Two" Scenario.now Scenario.later
              (Documents.sizeOf (Shelf.doc "doc_2" "Two")) "document"
              (Some "folder_b"))).
  - reflexivity.
  - vm_compute. reflexivity.
  - intros k [H | H]; [discriminate H |]. injection H as <-. reflexivity.
Defined.

(** The amended claim leaves out the ids with a separator: the move route
    accepts the id [folder_x/../folder_b], whose path is that of the record
    of [folder_b]; it stores the id as given and then writes into that
    record the number of documents filed under the id as given - here 1,
    while no document names [folder_b]. *)
Lemma move_through_relative_path_miscounts :
  let answer :=
    Move.PUT Scenario.later "doc_2" (JObj [("folderId", JStr "folder_x/../folder_b")])
      Shelf.start in
  is_success answer.1 = true /\
  meta_folderId <$> metadata answer.2 !! "doc_2" = Some (Some "folder_x/../folder_b") /\
  folder_documentCount <$> folders answer.2 !! "folder_b" = Some 1 /\
  FolderSpec.liveCount answer.2 "folder_b" = 0 /\
  folders answer.2 !! "folder_x/../folder_b" = None.
Proof. vm_compute. repeat split. Qed.

(** C1 fails as stated: starting from consistent counts, deleting the one
    document of the first folder and then moving another document into the
    second folder succeeds and leaves the first folder with a count of 1
    and no document. *)
Lemma move_counts_counterexample :
  FolderSpec.counts_consistent Shelf.start /\
  is_success
    (Move.PUT Scenario.later "doc_2" Shelf.toFolderB
       (Documents.DELETE "doc_1" Shelf.start).2).1 = true /\
  ~ FolderSpec.counts_consistent Shelf.afterDeleteAndMove.
Proof.
  split; [| split].
  - intros file f Hf.
    destruct (decide (file = "folder_a")) as [-> | Ha];
      [| destruct (decide (file = "folder_b")) as [-> | Hb]].
    + vm_compute in Hf. injection Hf as <-. vm_compute. reflexivity.
    + vm_compute in Hf. injection Hf as <-. vm_compute. reflexivity.
    + unfold Shelf.start in Hf. cbn [folders] in Hf.
      rewrite !lookup_insert_ne, lookup_empty in Hf by congruence. discriminate.
  - vm_compute. reflexivity.
  - intros H. specialize (H "folder_a" Shelf.folderA).
    assert (Hf : folders Shelf.afterDeleteAndMove !! "folder_a" = Some Shelf.folderA)
      by (vm_compute; reflexivity).
    specialize (H Hf). vm_compute in H. discriminate H.
Qed.

(** C10: for an existing document, a move request whose body has no
    folderId is answered exactly as one whose folderId is null, and leaves
    the same storage: the request succeeds, the stored metadata has no
    folderId, its modifiedAt is the time of the request and its other fields
    are as before. *)
Theorem move_without_folderId_is_move_to_root (now documentId : string)
    (body body0 : json) (st : Storage) (m : Metadata) :
  JS.startsWith documentId "doc_" = true ->
  invalid_body body = false ->
  invalid_body body0 = false ->
  Json.get body "folderId" = None ->
  Json.get body0 "folderId" = Some JNull ->
  metadata st !! documentId = Some m ->
  let m' :=
    mkMetadata (meta_id m) (meta_title m) (meta_createdAt m) now (meta_size m)
      (meta_type m) None in
  Move.PUT now documentId body st = Move.PUT now documentId body0 st /\
  (Move.PUT now documentId body st).1 = Success m' /\
  metadata (Move.PUT now documentId body st).2 !! documentId = Some m'.
Proof.
  intros Hid Hb Hb0 Hf Hf0 Hm m'.
  pose proof (startsWith_nonempty documentId "doc_" eq_refl Hid) as Hne.
  unfold Move.PUT, Move.target. rewrite Hid, Hne, Hb, Hb0, Hf, Hf0, Hm.
  cbn [negb orb]. cbv zeta. split; [reflexivity | split; [reflexivity |]].
  cbn [snd].
  rewrite (proj1 (proj2 (updateFolderCounts_frame _ _ _ _))).
  cbn. apply lookup_insert_eq.
Qed.

Lemma move_without_folderId_is_move_to_root_witness :
  let m' :=
    mkMetadata "doc_1" "One" Scenario.now Scenario.later
      (Documents.sizeOf (Shelf.doc "doc_1" "One")) "document" None in
  Move.PUT Scenario.later "doc_1" (JObj []) Shelf.start
  = Move.PUT Scenario.later "doc_1" (JObj [("folderId", JNull)]) Shelf.start /\
  (Move.PUT Scenario.later "doc_1" (JObj []) Shelf.start).1 = Success m' /\
  metadata (Move.PUT Scenario.later "doc_1" (JObj []) Shelf.start).2 !! "doc_1"
  = Some m'.
Proof.
  apply (move_without_folderId_is_move_to_root Scenario.later "doc_1" (JObj [])
           (JObj [("folderId", JNull)]) Shelf.start
           (Shelf.meta "doc_1" "One" (Some "folder_a")));
    reflexivity.
Defined.

(** ** Folder detail *)

(** C9: [GET] of an existing folder leaves the storage as it is exactly when
    the live document count of the folder - the number of metadata files
    whose record names it as folderId - equals the cached documentCount;
    otherwise its only write is the folder's record with the count set to
    that number and modifiedAt set to the time of the request. The answer
    carries the record as it is then stored, and lists exactly the
    documents of the folder, each by its id, title, times, size and
    type. *)
Theorem folder_get_writes_back_iff_count_differs (now folderId : string)
    (st : Storage) (f : FolderData) :
  Folders.invalid_id folderId = false ->
  folders st !! folderId = Some f ->
  let live := FolderSpec.liveCount st folderId in
  let st' := (Folders.GET now folderId st).2 in
  (st' = st <-> live = folder_documentCount f) /\
  (live <> folder_documentCount f ->
   st' = with_folders (insert folderId (FolderSpec.recounted now live f)) st /\
   folders st' !! folderId = Some (FolderSpec.recounted now live f)) /\
  is_success (Folders.GET now folderId st).1 = true /\
  exists detail,
    (Folders.GET now folderId st).1 = Success detail /\
    folders st' !! folderId = Some (Folders.detail_folder detail) /\
    folder_documentCount (Folders.detail_folder detail) = live /\
    (fun m => (meta_id m, meta_title m, meta_createdAt m, meta_modifiedAt m,
               meta_size m, meta_type m)) <$> Folders.detail_documents detail
    ≡ₚ (fun m => (meta_id m, meta_title m, meta_createdAt m, meta_modifiedAt m,
                  meta_size m, meta_type m))
       <$> (map_to_list (FolderSpec.members st folderId)).*2.
Proof.
  intros Hid Hf live st'. subst st'. unfold Folders.GET. rewrite Hid, Hf.
  rewrite memberDocuments_liveCount. fold live.
  destruct (bool_decide_reflect (live = folder_documentCount f)) as [E | E].
  - cbn [fst snd is_success]. split; [| split; [| split]]; [| | reflexivity |].
    + split; [intros _; exact E | reflexivity].
    + intros H. contradiction.
    + eexists. split; [reflexivity |].
      cbn [Folders.detail_folder Folders.detail_documents].
      split; [exact Hf |].
      split; [now symmetry | now rewrite memberDocuments_members].
  - cbn [fst snd is_success]. split; [| split; [| split]]; [| | reflexivity |].
    + split; [| intros H; contradiction].
      intros H. apply (f_equal folders) in H. cbn in H.
      apply (f_equal (fun fs => folder_documentCount <$> fs !! folderId)) in H.
      rewrite lookup_insert_eq, Hf in H. cbn in H. now injection H.
    + intros _. split; [reflexivity |]. cbn. apply lookup_insert_eq.
    + eexists. split; [reflexivity |].
      cbn [Folders.detail_folder Folders.detail_documents].
      split; [cbn; apply lookup_insert_eq |].
      split; [reflexivity | now rewrite memberDocuments_members].
Qed.

Lemma folder_get_writes_back_iff_count_differs_witness :
  let live := FolderSpec.liveCount Shelf.afterDeleteAndMove "folder_a" in
  let st' := (Folders.GET Scenario.later "folder_a" Shelf.afterDeleteAndMove).2 in
  live = 0 /\ folder_documentCount Shelf.folderA = 1 /\
  (st' = Shelf.afterDeleteAndMove <-> live = folder_documentCount Shelf.folderA) /\
  (live <> folder_documentCount Shelf.folderA ->
   st' = with_folders
           (insert "folder_a" (FolderSpec.recounted Scenario.later live Shelf.folderA))
           Shelf.afterDeleteAndMove /\
   folders st' !! "folder_a"
   = Some (FolderSpec.recounted Scenario.later live Shelf.folderA)) /\
  is_success (Folders.GET Scenario.later "folder_a" Shelf.afterDeleteAndMove).1 = true /\
  exists detail,
    (Folders.GET Scenario.later "folder_a" Shelf.afterDeleteAndMove).1 = Success detail /\
    folders st' !! "folder_a" = Some (Folders.detail_folder detail) /\
    folder_documentCount (Folders.detail_folder detail) = live /\
    (fun m => (meta_id m, meta_title m, meta_createdAt m, meta_modifiedAt m,
               meta_size m, meta_type m)) <$> Folders.detail_documents detail
    ≡ₚ (fun m => (meta_id m, meta_title m, meta_createdAt m, meta_modifiedAt m,
                  meta_size m, meta_type m))
       <$> (map_to_list (FolderSpec.members Shelf.afterDeleteAndMove "folder_a")).*2.
Proof.
  split; [vm_compute; reflexivity |]. split; [reflexivity |].
  apply (folder_get_writes_back_iff_count_differs Scenario.later "folder_a"
           Shelf.afterDeleteAndMove Shelf.folderA).
  - reflexivity.
  - vm_compute. reflexivity.
Defined.

(** ** Requests that leave the previews alone *)

Section PreviewFrame.

Lemma previews_deleteDocumentStep folderId file st :
  previews (Folders.deleteDocumentStep folderId file st).1 = previews st.
Proof.
  unfold Folders.deleteDocumentStep.
  destruct (metadata st !! file) as [m|]; [| reflexivity].
  destruct (bool_decide _); [| reflexivity].
  destruct (documents st !! meta_id m); reflexivity.
Qed.

Lemma previews_deleteDocumentsLoop files folderId st :
  previews (Folders.deleteDocumentsLoop files folderId st).1 = previews st.
Proof.
  revert st. induction files as [|file files IH]; intros st; [reflexivity |].
  cbn [Folders.deleteDocumentsLoop].
  pose proof (previews_deleteDocumentStep folderId file st) as H1.
  destruct (Folders.deleteDocumentStep folderId file st) as [st1 t1].
  pose proof (IH st1) as H2.
  destruct (Folders.deleteDocumentsLoop files folderId st1) as [st2 t2].
  cbn in *. congruence.
Qed.

Lemma previews_unlinkFolder file st :
  previews (Folders.unlinkFolder file st).1 = previews st.
Proof. unfold Folders.unlinkFolder. destruct (folders st !! file); reflexivity. Qed.

Lemma previews_deleteSubfoldersLoop self files folderId st st' t :
  (forall id s s' t', self id s = Some (s', t') -> previews s' = previews s) ->
  Folders.deleteSubfoldersLoop self files folderId st = Some (st', t) ->
  previews st' = previews st.
Proof.
  intros Hself. revert st st' t.
  induction files as [|file files IH]; intros st st' t; cbn [Folders.deleteSubfoldersLoop].
  - now intros [= <- _].
  - destruct (folders st !! file) as [sub|]; [| apply IH].
    destruct (bool_decide _); [| apply IH].
    unfold Folders.deleteDocumentsInFolder.
    pose proof (previews_deleteDocumentsLoop (readdir (metadata st)) (folder_id sub) st)
      as H1.
    destruct (Folders.deleteDocumentsLoop _ _ st) as [st1 t1].
    destruct (self (folder_id sub) st1) as [[st2 t2]|] eqn:E2; [| discriminate].
    pose proof (Hself _ _ _ _ E2) as H2.
    pose proof (previews_unlinkFolder file st2) as H3.
    destruct (Folders.unlinkFolder file st2) as [st3 t3].
    destruct (Folders.deleteSubfoldersLoop self files folderId st3) as [[st4 t4]|] eqn:E4;
      [| discriminate].
    intros [= <- _]. rewrite (IH _ _ _ E4). cbn in *. congruence.
Qed.

Lemma previews_deleteSubfoldersInFolder fuel folderId st st' t :
  Folders.deleteSubfoldersInFolder fuel folderId st = Some (st', t) ->
  previews st' = previews st.
Proof.
  revert folderId st st' t.
  induction fuel as [|fuel IH]; intros folderId st st' t; [discriminate |].
  cbn [Folders.deleteSubfoldersInFolder]. apply previews_deleteSubfoldersLoop.
  intros id s s' t'. apply IH.
Qed.

Lemma previews_folder_DELETE fuel folderId st r st' t :
  Folders.DELETE fuel folderId st = Some (r, st', t) -> previews st' = previews st.
Proof.
  unfold Folders.DELETE.
  destruct (Folders.invalid_id folderId); [now intros [= _ <- _] |].
  destruct (folders st !! folderId); [| now intros [= _ <- _]].
  unfold Folders.deleteDocumentsInFolder.
  pose proof (previews_deleteDocumentsLoop (readdir (metadata st)) folderId st) as H1.
  destruct (Folders.deleteDocumentsLoop _ _ st) as [st1 t1].
  destruct (Folders.deleteSubfoldersInFolder fuel folderId st1) as [[st2 t2]|] eqn:E;
    [| discriminate].
  apply previews_deleteSubfoldersInFolder in E. cbn in H1.
  destruct (folders st2 !! folderId); intros [= _ <- _]; cbn; congruence.
Qed.

Lemma previews_folder_GET now folderId st :
  previews (Folders.GET now folderId st).2 = previews st.
Proof.
  unfold Folders.GET.
  destruct (Folders.invalid_id folderId); [reflexivity |].
  destruct (folders st !! folderId); [| reflexivity].
  destruct (bool_decide _); reflexivity.
Qed.

Lemma previews_folder_POST now timestamp randomString body st :
  previews (Folders.POST now timestamp randomString body st).2 = previews st.
Proof.
  unfold Folders.POST.
  destruct (invalid_body body); [reflexivity |].
  destruct (Folders.sanitizedName body); reflexivity.
Qed.

Lemma previews_folder_PUT now folderId body st :
  previews (Folders.PUT now folderId body st).2 = previews st.
Proof.
  unfold Folders.PUT.
  destruct (Folders.invalid_id folderId); [reflexivity |].
  destruct (invalid_body body); [reflexivity |].
  destruct (folders st !! folderId); [| reflexivity].
  destruct (Json.get body "name") as [[| | |name| |]|]; try reflexivity.
  destruct (JS.nonempty name); [| reflexivity].
  destruct (JS.nonempty (sanitizeName name)); reflexivity.
Qed.

Lemma previews_move_PUT now documentId body st :
  previews (Move.PUT now documentId body st).2 = previews st.
Proof.
  unfold Move.PUT.
  destruct (_ || _); [reflexivity |].
  destruct (invalid_body body); [reflexivity |].
  destruct (Move.target body st); [| reflexivity].
  destruct (metadata st !! documentId); [| reflexivity].
  cbv zeta. cbn [snd].
  now rewrite (proj2 (proj2 (updateFolderCounts_frame _ _ _ _))).
Qed.

Lemma previews_document_PUT now timestamp documentId body st :
  Json.truthy_opt (Json.get body "content") = false ->
  previews (Documents.PUT now timestamp documentId body st).2 = previews st.
Proof.
  intros Hc. unfold Documents.PUT.
  destruct (negb _); [reflexivity |].
  destruct (invalid_body body); [reflexivity |].
  destruct (Documents.invalid_title body); [reflexivity |].
  destruct (documents st !! documentId); [| reflexivity].
  cbv zeta. cbn [snd].
  destruct (Json.get body "content") as [c|]; [| reflexivity].
  cbn in Hc. rewrite Hc. reflexivity.
Qed.

Lemma getPreviewUrl_reads now documentId st :
  Preview.getPreviewUrl now documentId st
  = (match previews st !! Preview.previewFileName documentId with
     | Some stats => Preview.previewUrl documentId (preview_mtime stats)
     | None => Preview.placeholderUrl
     end, st).
Proof.
  unfold Preview.getPreviewUrl.
  destruct (previews st !! Preview.previewFileName documentId); reflexivity.
Qed.

Lemma run_keeps_preview r st st' documentId :
  Requests.callsGeneratePreview r = false ->
  Requests.run r st = Some st' ->
  previews st' !! Preview.previewFileName documentId
  = previews st !! Preview.previewFileName documentId.
Proof.
  destruct r as [now ts rnd body | now ts id body | id | now id body
                 | now ts rnd body | now id | now id body | fuel id | now id];
    cbn [Requests.callsGeneratePreview Requests.run]; intros Hc.
  - discriminate Hc.
  - intros [= <-]. now rewrite previews_document_PUT.
  - intros [= <-]. apply DELETE_keeps_svg.
  - intros [= <-]. now rewrite previews_move_PUT.
  - intros [= <-]. now rewrite previews_folder_POST.
  - intros [= <-]. now rewrite previews_folder_GET.
  - intros [= <-]. now rewrite previews_folder_PUT.
  - destruct (Folders.DELETE fuel id st) as [[[r s] t]|] eqn:E; [| discriminate].
    intros [= <-]. now rewrite (previews_folder_DELETE _ _ _ _ _ _ E).
  - intros [= <-]. now rewrite getPreviewUrl_reads.
Qed.

Lemma runAll_keeps_preview rs st st' documentId :
  Forall (fun r => Requests.callsGeneratePreview r = false) rs ->
  Requests.runAll rs st = Some st' ->
  previews st' !! Preview.previewFileName documentId
  = previews st !! Preview.previewFileName documentId.
Proof.
  intros H. revert st.
  induction H as [|r rs Hr _ IH]; intros st; cbn [Requests.runAll].
  - now intros [= <-].
  - destruct (Requests.run r st) as [st1|] eqn:E; [| discriminate].
    intros Hrun. rewrite (IH _ Hrun). exact (run_keeps_preview _ _ _ _ Hr E).
Qed.

End PreviewFrame.

(** C8: [getPreviewUrl] returns the storage as it found it, whatever the
    clock reads; and two calls for the same document, separated by any
    requests that do not reach [generatePreview] (updates without content,
    document deletions, moves, folder creations, reads, renamings and
    deletions, other preview look-ups), return the same URL. *)
Theorem getPreviewUrl_stable (rs : list Requests.Request) (now now' : Z)
    (documentId : string) (st st' : Storage) :
  Forall (fun r => Requests.callsGeneratePreview r = false) rs ->
  Requests.runAll rs (Preview.getPreviewUrl now documentId st).2 = Some st' ->
  (Preview.getPreviewUrl now documentId st).2 = st /\
  (Preview.getPreviewUrl now' documentId st').2 = st' /\
  (Preview.getPreviewUrl now' documentId st').1
  = (Preview.getPreviewUrl now documentId st).1.
Proof.
  intros Hrs Hrun. rewrite !getPreviewUrl_reads in *. cbn [fst snd] in *.
  split; [reflexivity | split; [reflexivity |]].
  now rewrite (runAll_keeps_preview _ _ _ documentId Hrs Hrun).
Qed.

Lemma getPreviewUrl_stable_witness :
  (Preview.getPreviewUrl Scenario.timestamp' Scenario.report Scenario.withReport).2
  = Scenario.withReport /\
  (Preview.getPreviewUrl (Scenario.timestamp' + 5) Scenario.report
     (Documents.PUT Scenario.later Scenario.timestamp' Scenario.report
        (JObj [("title", JStr "Renamed")]) Scenario.withReport).2).2
  = (Documents.PUT Scenario.later Scenario.timestamp' Scenario.report
       (JObj [("title", JStr "Renamed")]) Scenario.withReport).2 /\
  (Preview.getPreviewUrl (Scenario.timestamp' + 5) Scenario.report
     (Documents.PUT Scenario.later Scenario.timestamp' Scenario.report
        (JObj [("title", JStr "Renamed")]) Scenario.withReport).2).1
  = (Preview.getPreviewUrl Scenario.timestamp' Scenario.report Scenario.withReport).1.
Proof.
  apply (getPreviewUrl_stable
           [Requests.DocumentPUT Scenario.later Scenario.timestamp' Scenario.report
              (JObj [("title", JStr "Renamed")])]).
  - constructor; [reflexivity | constructor].
  - reflexivity.
Defined.

(** ** Cascading deletion of a folder *)

Section CascadeRuns.
Import Cascade.








End CascadeRuns.

Section CascadeSteps.
Import Cascade Folders.








End CascadeSteps.

Section CascadeRecursion.
Import Cascade Folders.

Variable rank : string -> nat.








End CascadeRecursion.





(** The end-to-end run of the design document: the three documents and both
    folder records are gone, and the files go in depth-first order. *)
Lemma folder_delete_tree_run :
  exists st',
    Folders.DELETE 2 "folder_a" Cascade.tree
    = Some (Success tt, st',
            [Folders.UnlinkDocument "doc_1"; Folders.UnlinkMetadata "doc_1";
             Folders.UnlinkDocument "doc_2"; Folders.UnlinkMetadata "doc_2";
             Folders.UnlinkDocument "doc_3"; Folders.UnlinkMetadata "doc_3";
             Folders.UnlinkFolder "folder_c"; Folders.UnlinkFolder "folder_a"]) /\
    documents st' = ∅ /\ metadata st' = ∅ /\ folders st' = ∅.
Proof. eexists. vm_compute. repeat split. Qed.

Lemma loop_is_created :
  (Folders.POST Scenario.now 1735689600000 "abc123"
     (JObj [("name", JStr "Notes");
            ("parentFolderId", JStr "folder_1735689600000_abc123")])
     Scenario.empty).2
  = Cascade.loop.
Proof. reflexivity. Qed.



(** * Further properties of the routes *)

(** ** Requests that are refused *)

(** X1: a request that the create, update and move routes of documents or
    the create, rename and detail routes of folders answer with an error
    leaves the storage exactly as it was. *)
Theorem refused_requests_write_nothing (now : string) (timestamp : Z)
    (randomString id : string) (body : json) (st : Storage) :
  match Documents.POST now timestamp randomString body st with
  | (Failure _ _, st') => st' = st
  | _ => True
  end /\
  match Documents.PUT now timestamp id body st with
  | (Failure _ _, st') => st' = st
  | _ => True
  end /\
  match Move.PUT now id body st with
  | (Failure _ _, st') => st' = st
  | _ => True
  end /\
  match Folders.POST now timestamp randomString body st with
  | (Failure _ _, st') => st' = st
  | _ => True
  end /\
  match Folders.PUT now id body st with
  | (Failure _ _, st') => st' = st
  | _ => True
  end /\
  match Folders.GET now id st with
  | (Failure _ _, st') => st' = st
  | _ => True
  end.
Proof.
  repeat split.
  - unfold Documents.POST.
    destruct (invalid_body body); [reflexivity |].
    destruct (Documents.invalid_title body); [reflexivity | exact I].
  - unfold Documents.PUT.
    destruct (negb (JS.nonempty id)); [reflexivity |].
    destruct (invalid_body body); [reflexivity |].
    destruct (Documents.invalid_title body); [reflexivity |].
    destruct (documents st !! id); [exact I | reflexivity].
  - unfold Move.PUT.
    destruct (_ || _); [reflexivity |].
    destruct (invalid_body body); [reflexivity |].
    destruct (Move.target body st); [| reflexivity].
    destruct (metadata st !! id); [exact I | reflexivity].
  - unfold Folders.POST.
    destruct (invalid_body body); [reflexivity |].
    destruct (Folders.sanitizedName body); [exact I | reflexivity].
  - unfold Folders.PUT.
    destruct (Folders.invalid_id id); [reflexivity |].
    destruct (invalid_body body); [reflexivity |].
    destruct (folders st !! id); [| reflexivity].
    destruct (Json.get body "name") as [[| | |name| |]|]; try exact I.
    destruct (JS.nonempty name); [| exact I].
    destruct (JS.nonempty (sanitizeName name)); [exact I | reflexivity].
  - unfold Folders.GET.
    destruct (Folders.invalid_id id); [reflexivity |].
    destruct (folders st !! id); [| reflexivity].
    destruct (bool_decide _); exact I.
Qed.

(** ** Documents written and read back *)

Lemma prefix_empty (s : string) : String.prefix EmptyString s = true.
Proof. now destruct s. Qed.



(** ** Deleting a document *)


(** ** Updates, moves and folder membership *)



Section Members.


End Members.



Lemma target_folder (body : json) (st : Storage) (folderId : string) :
  Move.target body st = Success (Some folderId) ->
  Path.plain folderId = true ->
  JS.startsWith folderId "folder_" = true /\ is_Some (folders st !! folderId).
Proof.
  unfold Move.target.
  destruct (Json.get body "folderId") as [[| | |g| |]|]; try discriminate.
  destruct (JS.startsWith g "folder_") eqn:Hg; [| discriminate].
  destruct (Path.recordFile g) as [file| |] eqn:Hfile; try discriminate.
  destruct (folders st !! file) eqn:Hf; [| discriminate].
  intros [= <-] Hplain. rewrite (recordFile_plain _ Hplain) in Hfile.
  injection Hfile as <-. split; [exact Hg | now rewrite Hf].
Qed.

(** X6: after a successful move into a folder, where the folder and the
    folder the document came from are named by ids without a path
    separator, the detail route of the folder finds its cached count right:
    it answers with the moved document among the members, with a
    documentCount that is the live count of the folder, and writes
    nothing. *)
Theorem folder_detail_after_move (now now' documentId folderId : string)
    (body : json) (st st' : Storage) (m m' : Metadata) :
  metadata st !! documentId = Some m ->
  Move.PUT now documentId body st = (Success m', st') ->
  meta_folderId m' = Some folderId ->
  Path.plain folderId = true ->
  (forall old, meta_folderId m = Some old -> Path.plain old = true) ->
  (Folders.GET now' folderId st').2 = st' /\
  exists detail,
    (Folders.GET now' folderId st').1 = Success detail /\
    m' ∈ Folders.detail_documents detail /\
    folder_documentCount (Folders.detail_folder detail)
    = length (Folders.detail_documents detail) /\
    folder_documentCount (Folders.detail_folder detail)
    = FolderSpec.liveCount st' folderId.
Proof.
  intros Hm. unfold Move.PUT.
  destruct (_ || _); [discriminate |].
  destruct (invalid_body body); [discriminate |].
  destruct (Move.target body st) as [new | ? ?] eqn:Ht; [| discriminate].
  rewrite Hm. cbv zeta. intros [= <- <-]. cbn [meta_folderId]. intros -> Hplain Hold.
  destruct (target_folder _ _ _ Ht Hplain) as [Hshape [f Hf]].
  set (m' := mkMetadata _ _ _ _ _ _ _).
  set (st1 := with_metadata (insert documentId m') st).
  destruct (updateFolderCounts_frame now (meta_folderId m) (Some folderId) st1)
    as (_ & Hmeta & _).
  assert (Hne : JS.nonempty folderId = true)
    by exact (startsWith_nonempty folderId "folder_" eq_refl Hshape).
  assert (Hf2 : folders (Move.updateFolderCounts now (meta_folderId m) (Some folderId) st1)
                !! folderId
                = Some (FolderSpec.recounted now (FolderSpec.liveCount st1 folderId) f)).
  { rewrite lookup_updateFolderCounts.
    - destruct (decide _) as [_ | Hn]; [| exfalso; apply Hn; auto].
      change (folders st1) with (folders st). now rewrite Hf.
    - intros id [H | [= <-]]; [now apply Hold | exact Hplain]. }
  set (st2 := Move.updateFolderCounts now (meta_folderId m) (Some folderId) st1) in *.
  assert (Hcount : length (Folders.memberDocuments folderId st2)
                   = FolderSpec.liveCount st1 folderId).
  { now rewrite memberDocuments_liveCount, (liveCount_metadata _ _ _ Hmeta). }
  unfold Folders.GET, Folders.invalid_id. rewrite Hne, Hshape, Hf2. cbn [negb orb].
  rewrite bool_decide_eq_true_2 by exact Hcount.
  cbn [fst snd]. split; [reflexivity |].
  eexists. split; [reflexivity |]. cbn [Folders.detail_documents Folders.detail_folder].
  split; [| split].
  - unfold Folders.memberDocuments. rewrite Hmeta.
    apply list_elem_of_filter. split; [reflexivity |].
    apply list_elem_of_fmap. exists (documentId, m'). split; [reflexivity |].
    apply elem_of_map_to_list. cbn. apply lookup_insert_eq.
  - cbn. now symmetry.
  - cbn. now rewrite (liveCount_metadata _ _ _ Hmeta).
Qed.

Lemma folder_detail_after_move_witness :
  (Folders.GET Scenario.later "folder_b"
     (Move.PUT Scenario.later "doc_2" Shelf.toFolderB Shelf.start).2).2
  = (Move.PUT Scenario.later "doc_2" Shelf.toFolderB Shelf.start).2 /\
  exists detail,
    (Folders.GET Scenario.later "folder_b"
       (Move.PUT Scenario.later "doc_2" Shelf.toFolderB Shelf.start).2).1
    = Success detail /\
    mkMetadata "doc_2" "Two" Scenario.now Scenario.later
      (Documents.sizeOf (Shelf.doc "doc_2" "Two")) "document" (Some "folder_b")
    ∈ Folders.detail_documents detail /\
    folder_documentCount (Folders.detail_folder detail)
    = length (Folders.detail_documents detail) /\
    folder_documentCount (Folders.detail_folder detail)
    = FolderSpec.liveCount
        (Move.PUT Scenario.later "doc_2" Shelf.toFolderB Shelf.start).2 "folder_b".
Proof.
  apply (folder_detail_after_move Scenario.later Scenario.later "doc_2" "folder_b"
           Shelf.toFolderB Shelf.start _ (Shelf.meta "doc_2" "Two" None)).
  - reflexivity.
  - vm_compute. reflexivity.
  - reflexivity.
  - reflexivity.
  - intros old H. discriminate H.
Defined.

(** ** What a cascading deletion spares *)

Section CascadeFrame.
Import Cascade Folders.

Variable st0 : Storage.
Variable root : string.
Hypothesis ids0 : ids_match_files st0.


Let below (st : Storage) : Prop :=
  folders st ⊆ folders st0 /\ metadata st ⊆ metadata st0.












End CascadeFrame.

Lemma start_ids_match : Cascade.ids_match_files Shelf.start.
Proof.
  split; intros file x H; unfold Shelf.start in H; cbn [folders metadata] in H.
  - apply lookup_insert_Some in H as [[<- <-] | [_ H]]; [reflexivity |].
    apply lookup_insert_Some in H as [[<- <-] | [_ H]]; [reflexivity |].
    now rewrite lookup_empty in H.
  - apply lookup_insert_Some in H as [[<- <-] | [_ H]]; [reflexivity |].
    apply lookup_insert_Some in H as [[<- <-] | [_ H]]; [reflexivity |].
    now rewrite lookup_empty in H.
Defined.



(** X8: a folder deletion never removes or rewrites a preview file: the
    previews of the documents it destroys stay in [storage/previews]. *)
Theorem folder_delete_keeps_previews (fuel : nat) (folderId : string) (st : Storage) :
  match Folders.DELETE fuel folderId st with
  | Some (_, st', _) => previews st' = previews st
  | None => True
  end.
Proof.
  destruct (Folders.DELETE fuel folderId st) as [[[r st'] t]|] eqn:E; [| exact I].
  exact (previews_folder_DELETE _ _ _ _ _ _ E).
Qed.

(** ** Sanitising what is already clean *)

Section CleanStrings.

Lemma remove_chars_id (p : ascii -> bool) (s : string) :
  JS.all_chars (fun c => negb (p c)) s = true -> JS.remove_chars p s = s.
Proof.
  induction s as [|c s IH]; simpl; [reflexivity |].
  intros [Hc Hs]%andb_true_iff. apply negb_true_iff in Hc. rewrite Hc.
  now rewrite IH.
Qed.

Lemma trimStart_id (s : string) : no_leading_space s -> JS.trimStart s = s.
Proof.
  destruct s as [|c s]; [reflexivity |]. intros H. simpl.
  now rewrite (H c eq_refl).
Qed.

Lemma trimEnd_id (s : string) : no_trailing_space s -> JS.trimEnd s = s.
Proof.
  induction s as [|c s IH]; [reflexivity |]. intros H. simpl.
  destruct s as [|d s].
  - simpl. now rewrite (H c eq_refl).
  - rewrite IH by exact H. reflexivity.
Qed.

End CleanStrings.

(** X9: on a string that is already clean - none of the nine unsafe
    characters, no white space at either end, no longer than the limit - the
    sanitiser is the identity; so a title or name that came out of it
    untruncated goes through it again unchanged. *)
Theorem sanitize_keeps_clean_strings (max : nat) (s : string) :
  clean max s -> sanitize max s = s.
Proof.
  intros (Hu & Hl & Ht & Hlen). unfold sanitize, JS.trim.
  rewrite remove_chars_id by exact Hu.
  rewrite trimStart_id by exact Hl.
  rewrite trimEnd_id by exact Ht.
  now apply substring0_short.
Qed.

Lemma sanitize_keeps_clean_strings_witness :
  sanitize 50 "Meeting notes 2025" = "Meeting notes 2025".
Proof.
  apply (sanitize_keeps_clean_strings 50 "Meeting notes 2025").
  split; [reflexivity |]. split; [intros c [= <-]; reflexivity |].
  split; [intros c [= <-]; reflexivity | vm_compute; lia].
Defined.

(** ** Extracted text *)

Section ExtractedText.
Import Preview.

Let lineBreak (c : ascii) : bool := Ascii.eqb c CR || Ascii.eqb c LF.

Let tidy (s : string) : Prop :=
  JS.nonempty s = true /\
  JS.all_chars (fun c => negb (lineBreak c)) s = true /\
  no_leading_space s /\ no_trailing_space s.

Lemma clean_line_tidy (line : string) :
  JS.nonempty (clean_line line) = true -> tidy (clean_line line).
Proof.
  intros Hne. split; [exact Hne |]. unfold clean_line, JS.trim. split; [| split].
  - apply all_chars_trimEnd, all_chars_trimStart.
    exact (all_chars_remove lineBreak line).
  - intros c Hc. apply first_char_trimEnd in Hc.
    exact (trimStart_no_leading _ c Hc).
  - apply trimEnd_no_trailing.
Qed.

Lemma with_spacing_texts (P : string -> Prop) (l : list string) :
  Forall P l -> Forall (fun sl => P (text sl)) (with_spacing l).
Proof.
  destruct 1 as [|x l Hx Hl]; [constructor |]. cbn [with_spacing].
  constructor; [exact Hx |].
  change (Forall (fun sl => P (text sl)) ((fun t => mkLine t 5) <$> l)).
  apply Forall_fmap. exact Hl.
Qed.

Lemma with_spacing_spaces (l : list string) (i : nat) (sl : StructuredLine) :
  with_spacing l !! i = Some sl ->
  spaceAbove sl = if decide (i = 0) then 0%Z else 5%Z.
Proof.
  destruct l as [|x l]; [discriminate |]. cbn [with_spacing].
  destruct i as [|i]; cbn.
  - now intros [= <-].
  - change (((fun t => mkLine t 5) <$> l) !! i = Some sl -> spaceAbove sl = 5%Z).
    rewrite list_lookup_fmap. destruct (l !! i); cbn; [| discriminate].
    now intros [= <-].
Qed.

Lemma extracted_lines_tidy (document : json) (lines : list StructuredLine) :
  extractStructuredText document = Some lines ->
  Forall (fun sl => tidy (text sl)) lines /\
  (forall i sl, lines !! i = Some sl ->
     spaceAbove sl = if decide (i = 0) then 0%Z else 5%Z).
Proof.
  unfold extractStructuredText.
  assert (Hnil : Forall (fun sl => tidy (text sl)) [] /\
                 (forall i sl, @nil StructuredLine !! i = Some sl ->
                    spaceAbove sl = if decide (i = 0) then 0%Z else 5%Z))
    by (split; [constructor | intros i sl H; destruct i; discriminate H]).
  destruct document as [| b0 | n0 | s0 | items0 | fields0]; [discriminate | ..].
  all: destruct (Json.get _ "body") as [body|]; [| now intros [= <-]].
  all: destruct (Json.truthy body); [| now intros [= <-]].
  all: destruct (Json.get body "dataStream") as [[| b | n | ds | items | fields]|];
    try (now intros [= <-]);
    try (cbn [Json.truthy]; match goal with
         | |- context [if ?b then _ else _] => destruct b
         end; (discriminate || now intros [= <-])).
  all: destruct (JS.nonempty ds); [| now intros [= <-]].
  all: intros [= <-]; (split; [| intros i sl; apply with_spacing_spaces]).
  all: apply (with_spacing_texts tidy); apply Forall_forall.
  all: intros line [Hne Hin]%list_elem_of_filter.
  all: change (line ∈ clean_line <$> split_cr_runs ds EmptyString 0) in Hin.
  all: apply list_elem_of_fmap in Hin as (piece & -> & _).
  all: now apply clean_line_tidy.
Qed.

Lemma all_chars_append (p : ascii -> bool) (a b : string) :
  JS.all_chars p (a +:+ b) = JS.all_chars p a && JS.all_chars p b.
Proof. induction a as [|c a IH]; simpl; [reflexivity | now rewrite IH, andb_assoc]. Qed.

Lemma all_chars_repeat (p : ascii -> bool) (c : ascii) (n : nat) :
  p c = true -> JS.all_chars p (JS.repeat_char c n) = true.
Proof. intros H. induction n as [|n IH]; simpl; [reflexivity | now rewrite H, IH]. Qed.

Lemma all_chars_remove_chars (p q : ascii -> bool) (s : string) :
  JS.all_chars p s = true -> JS.all_chars p (JS.remove_chars q s) = true.
Proof.
  induction s as [|c s IH]; simpl; [reflexivity |].
  intros [Hc Hs]%andb_true_iff. destruct (q c); simpl; [now apply IH |].
  now rewrite Hc, IH.
Qed.

Lemma trim_blank (s : string) :
  JS.all_chars JS.is_space s = true -> JS.trim s = EmptyString.
Proof.
  unfold JS.trim. intros H.
  assert (JS.trimStart s = EmptyString) as ->; [| reflexivity].
  induction s as [|c s IH]; simpl; [reflexivity |].
  simpl in H. apply andb_true_iff in H as [Hc Hs]. rewrite Hc. now apply IH.
Qed.

Lemma split_cr_runs_blank (s acc : string) (pending : nat) :
  JS.all_chars JS.is_space s = true -> JS.all_chars JS.is_space acc = true ->
  Forall (fun piece => JS.all_chars JS.is_space piece = true)
    (split_cr_runs s acc pending).
Proof.
  revert acc pending.
  induction s as [|c s IH]; intros acc pending Hs Hacc; cbn [split_cr_runs].
  - destruct (2 <=? pending)%nat.
    + constructor; [exact Hacc |]. constructor; [reflexivity | constructor].
    + constructor; [| constructor].
      rewrite all_chars_append, Hacc. now apply all_chars_repeat.
  - simpl in Hs. apply andb_true_iff in Hs as [Hc Hs].
    destruct (Ascii.eqb c CR); [now apply IH |].
    destruct (2 <=? pending)%nat.
    + constructor; [exact Hacc |]. apply IH; [exact Hs |]. simpl. now rewrite Hc.
    + apply IH; [exact Hs |].
      rewrite !all_chars_append, Hacc, all_chars_repeat by reflexivity.
      simpl. now rewrite Hc.
Qed.

Lemma blank_pieces_vanish (pieces : list string) :
  Forall (fun piece => JS.all_chars JS.is_space piece = true) pieces ->
  filter (fun line => JS.nonempty line = true) (map clean_line pieces) = [].
Proof.
  induction 1 as [|piece pieces Hp _ IH]; [reflexivity |].
  cbn [map]. rewrite filter_cons, IH.
  assert (clean_line piece = EmptyString) as ->.
  { unfold clean_line. apply trim_blank. now apply all_chars_remove_chars. }
  destruct (decide (JS.nonempty EmptyString = true)); [discriminate | reflexivity].
Qed.

Lemma blank_document_has_no_lines (document body : json) (dataStream : string) :
  Json.get document "body" = Some body ->
  Json.get body "dataStream" = Some (JStr dataStream) ->
  JS.all_chars JS.is_space dataStream = true ->
  extractStructuredText document = Some [].
Proof.
  intros Hb Hd Hblank. unfold extractStructuredText.
  destruct document as [| b0 | n0 | s0 | items0 | fields0];
    [cbn in Hb; discriminate Hb | ..].
  all: rewrite Hb.
  all: destruct (Json.truthy body); [| reflexivity].
  all: rewrite Hd.
  all: destruct (JS.nonempty dataStream); [| reflexivity].
  all: rewrite blank_pieces_vanish; [reflexivity |].
  all: now apply split_cr_runs_blank.
Qed.

End ExtractedText.

(** X10: every line that [extractStructuredText] returns is non-empty,
    holds no carriage return or line feed and has no white space at either
    end; the first line has no space above it and every later line has the
    spacing hint 5. *)
Theorem extracted_lines_are_clean (document : json) :
  match Preview.extractStructuredText document with
  | Some lines =>
      Forall (fun sl =>
                JS.nonempty (Preview.text sl) = true /\
                JS.all_chars
                  (fun c => negb (Ascii.eqb c Preview.CR || Ascii.eqb c Preview.LF))
                  (Preview.text sl) = true /\
                no_leading_space (Preview.text sl) /\
                no_trailing_space (Preview.text sl)) lines /\
      (forall i sl, lines !! i = Some sl ->
         Preview.spaceAbove sl = if decide (i = 0) then 0%Z else 5%Z)
  | None => True
  end.
Proof.
  destruct (Preview.extractStructuredText document) as [lines|] eqn:E; [| exact I].
  exact (extracted_lines_tidy document lines E).
Qed.

(** X11: a document whose text stream holds nothing but white space
    (carriage returns and line feeds included) has no lines, and
    [generatePreview] writes for it the canvas with the Empty Document
    placeholder. *)
Theorem blank_document_gets_placeholder (now : Z) (documentId : string)
    (document body : json) (dataStream : string) (st : Storage) :
  Json.get document "body" = Some body ->
  Json.get body "dataStream" = Some (JStr dataStream) ->
  JS.all_chars JS.is_space dataStream = true ->
  Preview.generatePreview now documentId document st
  = Some (Preview.previewUrl documentId now,
          with_previews
            (insert (Preview.previewFileName documentId)
               (mkPreviewFile
                  (Preview.svgOpen +:+ Preview.emptyDocumentText +:+ "</svg>") now))
            st).
Proof.
  intros Hb Hd Hblank. unfold Preview.generatePreview.
  now rewrite (blank_document_has_no_lines document body dataStream Hb Hd Hblank).
Qed.

Lemma blank_document_gets_placeholder_witness :
  Preview.generatePreview 7 "doc_1"
    (PreviewSpec.documentOf
       (String " " (String Preview.CR (String Preview.CR (String Preview.LF " ")))))
    Scenario.empty
  = Some (Preview.previewUrl "doc_1" 7,
          with_previews
            (insert (Preview.previewFileName "doc_1")
               (mkPreviewFile
                  (Preview.svgOpen +:+ Preview.emptyDocumentText +:+ "</svg>") 7))
            Scenario.empty).
Proof.
  apply (blank_document_gets_placeholder 7 "doc_1" _
           (JObj [("dataStream",
                   JStr (String " "
                           (String Preview.CR (String Preview.CR (String Preview.LF " ")))))])
           (String " " (String Preview.CR (String Preview.CR (String Preview.LF " ")))));
    reflexivity.
Defined.

(** ** The canvas *)

Section Canvas.
Import Preview.

Let gaps (ys : list Z) : Prop :=
  forall i a b, ys !! i = Some a -> ys !! S i = Some b -> (a + 16 <= b)%Z.

(** [y] is the pen, [ys] the baselines of the elements pushed so far. *)
Let placed (y : Z) (ys : list Z) : Prop :=
  (20 + 16 * Z.of_nat (length ys) <= y)%Z /\
  (forall i v, ys !! i = Some v ->
     (36 + 16 * Z.of_nat i <= v)%Z /\ (v <= 180)%Z /\ (v <= y)%Z) /\
  gaps ys.

Lemma placed_mono (y y' : Z) (ys : list Z) :
  placed y ys -> (y <= y')%Z -> placed y' ys.
Proof.
  intros (Hlen & Hin & Hgap) Hle. split; [lia |]. split; [| exact Hgap].
  intros i v Hv. destruct (Hin i v Hv) as (? & ? & ?). lia.
Qed.

Lemma placed_snoc (y : Z) (ys : list Z) :
  placed y ys -> (y + 16 <= 180)%Z -> placed (y + 16) (ys ++ [(y + 16)%Z]).
Proof.
  intros (Hlen & Hin & Hgap) Hfit. split; [| split].
  - rewrite length_app. simpl. lia.
  - intros i v [Hv | [Hi Hv]]%lookup_app_Some.
    + destruct (Hin i v Hv) as (? & ? & ?). lia.
    + apply list_lookup_singleton_Some in Hv as [Hz <-]. lia.
  - intros i a b [Ha | [Hi Ha]]%lookup_app_Some [Hb | [Hj Hb]]%lookup_app_Some.
    + exact (Hgap i a b Ha Hb).
    + apply list_lookup_singleton_Some in Hb as [_ <-].
      destruct (Hin i a Ha) as (? & ? & ?). lia.
    + apply lookup_lt_Some in Hb. lia.
    + apply list_lookup_singleton_Some in Hb as [Hz _]. lia.
Qed.

Lemma mark_last_baselines (els : list TextElement) :
  map te_y (mark_last els) = map te_y els.
Proof.
  induction els as [|e els IH]; [reflexivity |].
  destruct els as [|e' els]; [reflexivity |].
  change (mark_last (e :: e' :: els)) with (e :: mark_last (e' :: els)).
  cbn [map]. cbn [map] in IH. now rewrite IH.
Qed.

Lemma emitLines_placed (displayLines : list string) (y : Z) (els : list TextElement) :
  placed y (map te_y els) ->
  placed (emitLines displayLines y els).1 (map te_y (emitLines displayLines y els).2).
Proof.
  revert y els. induction displayLines as [|line rest IH]; intros y els H;
    cbn [emitLines]; [exact H |].
  unfold height, padding, baseLineHeight.
  destruct (Z.ltb_spec (200 - 20) (y + 16)) as [Hover | Hfit]; cbn [fst snd].
  - rewrite mark_last_baselines. apply (placed_mono y); [exact H | lia].
  - apply IH. rewrite map_app. cbn [map te_y]. apply placed_snoc; [exact H | lia].
Qed.

Lemma layoutLines_placed (lines : list StructuredLine) (y : Z) (els : list TextElement) :
  placed y (map te_y els) -> exists y', placed y' (map te_y (layoutLines lines y els)).
Proof.
  revert y els. induction lines as [|sl rest IH]; intros y els H; cbn [layoutLines].
  - now exists y.
  - set (y0 := if (0 <? spaceAbove sl)%Z then (y + spaceAbove sl * 3)%Z else y).
    assert (H0 : placed y0 (map te_y els)).
    { apply (placed_mono y); [exact H |]. unfold y0.
      destruct (Z.ltb_spec 0 (spaceAbove sl)); lia. }
    pose proof (emitLines_placed
                  (wrapWords maxCharsPerLine (split_words (text sl) EmptyString))
                  y0 els H0) as H1.
    destruct (emitLines _ y0 els) as [y1 els1]. cbn [fst snd] in H1.
    destruct (height - padding <? y1)%Z; [now exists y1 | now apply IH].
Qed.

Lemma previewElements_placed (lines : list StructuredLine) :
  exists y, placed y (map te_y (previewElements lines)).
Proof.
  apply layoutLines_placed. split; [unfold padding; simpl; lia |].
  split; intros i; intros; destruct i; discriminate.
Qed.

Lemma baselines_on_canvas (lines : list StructuredLine) :
  length (map te_y (previewElements lines)) <= 10 /\
  Forall (fun y => (36 <= y <= 180)%Z) (map te_y (previewElements lines)) /\
  forall i a b,
    map te_y (previewElements lines) !! i = Some a ->
    map te_y (previewElements lines) !! S i = Some b -> (a + 16 <= b)%Z.
Proof.
  destruct (previewElements_placed lines) as (y & Hlen & Hin & Hgap).
  split; [| split; [| exact Hgap]].
  - destruct (decide (length (map te_y (previewElements lines)) <= 10)) as [|Hn];
      [assumption |].
    destruct (lookup_lt_is_Some_2 (map te_y (previewElements lines)) 10) as [v Hv];
      [lia |].
    destruct (Hin 10 v Hv) as (? & ? & ?). lia.
  - apply Forall_forall. intros v [i Hv]%list_elem_of_lookup.
    destruct (Hin i v Hv) as (? & ? & ?). lia.
Qed.

Lemma no_opening_bracket_no_closing_tag (s : string) :
  JS.all_chars (fun c => negb (Ascii.eqb c "<" || Ascii.eqb c ">")) s = true ->
  JSSearch.includes s "</text>" = false.
Proof.
  induction s as [|c s IH]; [reflexivity |]. intros H. simpl in H.
  apply andb_true_iff in H as [Hc Hs].
  cbn [JSSearch.includes String.prefix]. rewrite (IH Hs).
  destruct (ascii_dec "<" c) as [<- | _]; [discriminate Hc | reflexivity].
Qed.

Lemma escape_markup_brackets (s : string) :
  JS.all_chars (fun c => negb (Ascii.eqb c "<" || Ascii.eqb c ">"))
    (escape_markup s) = true.
Proof.
  induction s as [|c s IH]; [reflexivity |]. cbn [escape_markup].
  rewrite all_chars_append, IH, andb_true_r. unfold escape_markup_char.
  destruct (Ascii.eqb c "<") eqn:E1; [reflexivity |].
  destruct (Ascii.eqb c ">") eqn:E2; [reflexivity |].
  destruct (Ascii.eqb c "&"); [reflexivity |].
  cbn [JS.all_chars]. now rewrite E1, E2.
Qed.

End Canvas.

(** X12: whatever the document, the preview holds at most ten text
    elements; each baseline lies between padding + baseLineHeight (36) and
    height - padding (180), and consecutive baselines are at least one
    baseLineHeight apart. *)
Theorem preview_shows_at_most_ten_lines (lines : list Preview.StructuredLine) :
  let ys := map Preview.te_y (Preview.previewElements lines) in
  length ys <= 10 /\
  Forall (fun y => (Preview.padding + Preview.baseLineHeight <= y
                    <= Preview.height - Preview.padding)%Z) ys /\
  forall i a b,
    ys !! i = Some a -> ys !! S i = Some b -> (a + Preview.baseLineHeight <= b)%Z.
Proof. exact (baselines_on_canvas lines). Qed.

(** X13: an escaped display line holds no angle bracket, hence no closing
    text tag: the first closing tag of a pushed element, the one the
    overflow marker is put in front of, is the element's own. *)
Theorem escaped_line_has_no_markup (displayLine : string) :
  JS.all_chars (fun c => negb (Ascii.eqb c "<" || Ascii.eqb c ">"))
    (Preview.escape_markup displayLine) = true /\
  JSSearch.includes (Preview.escape_markup displayLine) "</text>" = false.
Proof.
  split; [apply escape_markup_brackets |].
  apply no_opening_bracket_no_closing_tag, escape_markup_brackets.
Qed.

(** ** Wrapping keeps the text *)

Section Rejoin.
Import Preview.

Variable maxChars : nat.

Let join : list string -> string := String.concat " ".

Let lines_of (acc : list string * string) : list string :=
  acc.1 ++ (if JS.nonempty acc.2 then [acc.2] else []).

Lemma join_cons (a : string) (l : list string) :
  l <> [] -> join (a :: l) = a +:+ " " +:+ join l.
Proof. destruct l; [congruence | reflexivity]. Qed.

Lemma join_merge (displayLines rest : list string) (x w : string) :
  join (displayLines ++ (x +:+ " " +:+ w) :: rest)
  = join (displayLines ++ x :: w :: rest).
Proof.
  induction displayLines as [|a l IH].
  - cbn [app]. rewrite (join_cons x) by discriminate.
    destruct rest as [|b rest]; [reflexivity |].
    rewrite !join_cons by discriminate. now rewrite !append_assoc.
  - cbn [app]. rewrite !join_cons by (destruct l; discriminate). now rewrite IH.
Qed.

Lemma wrap_step_rejoin (acc : list string * string) (w : string) (rest : list string) :
  JS.nonempty w = true -> String.length w <= maxChars ->
  join (lines_of (wrap_step maxChars acc w) ++ rest)
  = join (lines_of acc ++ w :: rest).
Proof.
  intros Hw Hlen. destruct acc as [displayLines cur]. unfold wrap_step, lines_of.
  destruct cur as [|c cur]; cbn [JS.nonempty fst snd].
  - change (EmptyString +:+ EmptyString +:+ w) with w.
    destruct (Nat.ltb_spec maxChars (String.length w)) as [Hlong | _]; [lia |].
    cbn [fst snd]. rewrite Hw, app_nil_r, <- app_assoc. reflexivity.
  - destruct (maxChars <? _)%nat; cbn [fst snd].
    + rewrite Hw, <- !app_assoc. reflexivity.
    + change (JS.nonempty (String c cur +:+ " " +:+ w)) with true.
      rewrite <- !app_assoc. apply join_merge.
Qed.

Lemma wrap_fold_rejoin (ws : list string) (acc : list string * string) :
  Forall (fun w => JS.nonempty w = true /\ String.length w <= maxChars) ws ->
  join (lines_of (fold_left (wrap_step maxChars) ws acc)) = join (lines_of acc ++ ws).
Proof.
  intros H. revert acc. induction H as [|w ws [Hw Hlen] _ IH]; intros acc; cbn [fold_left].
  - now rewrite app_nil_r.
  - rewrite IH. now apply wrap_step_rejoin.
Qed.

Lemma wrapWords_rejoin (ws : list string) :
  Forall (fun w => JS.nonempty w = true /\ String.length w <= maxChars) ws ->
  String.concat " " (wrapWords maxChars ws) = String.concat " " ws.
Proof.
  intros H. pose proof (wrap_fold_rejoin ws ([], EmptyString) H) as E.
  unfold wrapWords. unfold lines_of at 1 in E.
  destruct (fold_left _ ws _) as [displayLines cur]. cbn [fst snd] in E.
  destruct (JS.nonempty cur); [exact E | now rewrite app_nil_r in E].
Qed.

End Rejoin.

(** X14: when every word of a logical line is non-empty and fits on a
    display line, wrapping loses and adds nothing: the display lines joined
    by single spaces are the words joined by single spaces. *)
Theorem wrapping_keeps_the_words (maxChars : nat) (words : list string) :
  Forall (fun w => JS.nonempty w = true /\ String.length w <= maxChars) words ->
  String.concat " " (Preview.wrapWords maxChars words) = String.concat " " words.
Proof. exact (wrapWords_rejoin maxChars words). Qed.

Lemma wrapping_keeps_the_words_witness :
  Preview.wrapWords 10 ["the"; "quick"; "brown"; "fox"] = ["the quick"; "brown fox"] /\
  String.concat " " (Preview.wrapWords 10 ["the"; "quick"; "brown"; "fox"])
  = String.concat " " ["the"; "quick"; "brown"; "fox"].
Proof.
  split; [reflexivity |].
  apply (wrapping_keeps_the_words 10 ["the"; "quick"; "brown"; "fox"]).
  repeat (apply List.Forall_cons; [split; [reflexivity | simpl; lia] |]).
  apply List.Forall_nil.
Defined.

(** ** Serving what the generator wrote *)

Lemma endsWith_append (s p : string) : JSSearch.endsWith (s +:+ p) p = true.
Proof.
  induction s as [|c s IH].
  - change (EmptyString +:+ p) with p.
    destruct p; cbn [JSSearch.endsWith]; now rewrite String.eqb_refl.
  - change (String c s +:+ p) with (String c (s +:+ p)).
    cbn [JSSearch.endsWith]. rewrite IH. apply orb_true_r.
Qed.

Lemma nonempty_append (s p : string) :
  JS.nonempty p = true -> JS.nonempty (s +:+ p) = true.
Proof. destruct s; [trivial | reflexivity]. Qed.

Lemma invalid_previewFileName (documentId : string) :
  PreviewFiles.invalid_filename (Preview.previewFileName documentId)
  = JSSearch.includes (Preview.previewFileName documentId) "..".
Proof.
  unfold PreviewFiles.invalid_filename, Preview.previewFileName.
  rewrite nonempty_append by reflexivity. rewrite endsWith_append.
  cbn [negb orb]. now rewrite andb_false_r, orb_false_r.
Qed.

(** X15: the preview that [generatePreview] has written is what the
    previews route serves under the file name of the returned URL, as
    image/svg+xml - and it still serves it after the document has been
    deleted. Only when that file name holds two dots in a row (the document
    id ends with a dot or holds two) is the request refused with 400. *)
Theorem generated_preview_is_served (now now' : Z) (documentId : string)
    (document : json) (st st' : Storage) (url : string) :
  Preview.generatePreview now documentId document st = Some (url, st') ->
  exists svg,
    previews st' !! Preview.previewFileName documentId = Some (mkPreviewFile svg now) /\
    let answer :=
      if JSSearch.includes (Preview.previewFileName documentId) ".."
      then Failure 400 "Invalid filename"
      else Success
             (PreviewFiles.mkServed svg "image/svg+xml" "public, max-age=3600"
                (String Json.dquote (JS.of_Z now' +:+ String Json.dquote EmptyString))) in
    PreviewFiles.GET now' (Preview.previewFileName documentId) st' = answer /\
    PreviewFiles.GET now' (Preview.previewFileName documentId)
      (Documents.DELETE documentId st').2 = answer.
Proof.
  unfold Preview.generatePreview.
  destruct (Preview.extractStructuredText document) as [lines|]; [| discriminate].
  intros [= _ <-]. exists (Preview.svgContent lines).
  assert (Hfile : previews
                    (with_previews
                       (insert (Preview.previewFileName documentId)
                          (mkPreviewFile (Preview.svgContent lines) now)) st)
                  !! Preview.previewFileName documentId
                  = Some (mkPreviewFile (Preview.svgContent lines) now))
    by apply lookup_insert_eq.
  split; [exact Hfile |]. cbv zeta. unfold PreviewFiles.GET.
  rewrite invalid_previewFileName, DELETE_keeps_svg, Hfile.
  destruct (JSSearch.includes _ ".."); [split; reflexivity |].
  unfold Preview.previewFileName. rewrite endsWith_append.
  split; reflexivity.
Qed.

Lemma generated_preview_is_served_witness :
  exists svg,
    previews (Preview.generatePreviewInBackground 7 "doc_1"
                (PreviewSpec.documentOf "Quarterly figures") Scenario.empty)
      !! "doc_1.svg" = Some (mkPreviewFile svg 7) /\
    PreviewFiles.GET 9 "doc_1.svg"
      (Preview.generatePreviewInBackground 7 "doc_1"
         (PreviewSpec.documentOf "Quarterly figures") Scenario.empty)
    = Success (PreviewFiles.mkServed svg "image/svg+xml" "public, max-age=3600"
                 (String Json.dquote ("9" +:+ String Json.dquote EmptyString))).
Proof.
  destruct (generated_preview_is_served 7 9 "doc_1"
              (PreviewSpec.documentOf "Quarterly figures") Scenario.empty
              (Preview.generatePreviewInBackground 7 "doc_1"
                 (PreviewSpec.documentOf "Quarterly figures") Scenario.empty)
              (Preview.previewUrl "doc_1" 7) eq_refl) as (svg & Hfile & Hget & _).
  exists svg. split; [exact Hfile | exact Hget].
Defined.

(** ** The batch run *)

Section Batch.
Import PreviewBatch.

Variable st0 : Storage.

(** Storages that differ from [st0] at most in previews that are not
    [.png] files. *)
Let same (st : Storage) : Prop :=
  documents st = documents st0 /\ metadata st = metadata st0 /\
  folders st = folders st0 /\
  forall name, previews st !! (name +:+ ".png") = previews st0 !! (name +:+ ".png").

(** What a turn of the loop does with a file: skip it ([None]), generate
    ([Some true]) or fail ([Some false]). *)
Let outcome (file : string) : option bool :=
  match previews st0 !! (documentIdOf file +:+ ".png") with
  | Some _ => None
  | None =>
      match documents st0 !! file with
      | None => Some false
      | Some documentData =>
          match doc_content documentData with
          | JNull => Some false
          | content =>
              match Preview.extractStructuredText content with
              | Some _ => Some true
              | None => Some false
              end
          end
      end
  end.

Let count (o : option bool) (files : list string) : nat :=
  length (filter (fun file => outcome file = o) files).

Lemma same_refl : same st0.
Proof. repeat split. Qed.

Lemma same_written (st : Storage) (documentId : string) (file : PreviewFile) :
  same st -> same (with_previews (insert (Preview.previewFileName documentId) file) st).
Proof.
  intros (Hd & Hm & Hf & Hp). split; [exact Hd |]. split; [exact Hm |].
  split; [exact Hf |]. intros name. cbn.
  rewrite lookup_insert_ne; [apply Hp |].
  apply suffix_differs; [reflexivity | discriminate].
Qed.

Lemma step_outcome (now : Z) (st : Storage) (g s e : nat) (file : string) :
  same st ->
  exists st', same st' /\
    step now (st, (g, s, e)) file
    = (st', match outcome file with
            | None => (g, S s, e)
            | Some true => (S g, s, e)
            | Some false => (g, s, S e)
            end).
Proof.
  intros H. pose proof H as (Hd & _ & _ & Hp). unfold step, outcome.
  rewrite Hp, Hd.
  destruct (previews st0 !! _); [now exists st |].
  destruct (documents st0 !! file) as [documentData|]; [| now exists st].
  unfold Preview.generatePreview.
  destruct (doc_content documentData); [now exists st | | | | |];
    (destruct (Preview.extractStructuredText _);
     [eexists; split; [apply same_written; exact H | reflexivity] | now exists st]).
Qed.

Lemma count_cons (o : option bool) (file : string) (files : list string) :
  count o (file :: files)
  = if decide (outcome file = o) then S (count o files) else count o files.
Proof. unfold count. rewrite filter_cons. now destruct (decide _). Qed.

Lemma fold_outcomes (now : Z) (files : list string) (st : Storage) (g s e : nat) :
  same st ->
  exists st', same st' /\
    fold_left (step now) files (st, (g, s, e))
    = (st', (g + count (Some true) files, s + count None files,
             e + count (Some false) files)).
Proof.
  revert st g s e. induction files as [|file files IH]; intros st g s e H.
  - exists st. split; [exact H |]. cbn [fold_left]. unfold count. cbn.
    now rewrite !Nat.add_0_r.
  - cbn [fold_left]. destruct (step_outcome now st g s e file H) as (st1 & H1 & ->).
    rewrite !count_cons.
    destruct (outcome file) as [[|]|];
      repeat (destruct (decide _) as [?|?]; try discriminate; try congruence);
      match goal with
      | |- context [fold_left _ _ (st1, (?g', ?s', ?e'))] =>
          destruct (IH st1 g' s' e' H1) as (st2 & H2 & ->)
      end;
      (exists st2; split; [exact H2 |]; now rewrite <- ?Nat.add_succ_comm).
Qed.

Lemma counts_add_up (files : list string) :
  count (Some true) files + count None files + count (Some false) files = length files.
Proof.
  induction files as [|file files IH]; [reflexivity |].
  rewrite !count_cons. cbn [length].
  destruct (outcome file) as [[|]|];
    repeat (destruct (decide _) as [?|?]; try discriminate; try congruence); lia.
Qed.

Lemma skipped_files (files : list string) :
  count None files
  = length (filter (fun file => is_Some (previews st0 !! (documentIdOf file +:+ ".png")))
              files).
Proof.
  unfold count. f_equal. apply list_filter_iff. intros file. unfold outcome.
  destruct (previews st0 !! _) as [p|].
  - split; [intros _; now exists p | reflexivity].
  - split.
    + destruct (documents st0 !! file) as [d|]; [| discriminate].
      destruct (doc_content d); try discriminate;
        destruct (Preview.extractStructuredText _); discriminate.
    + intros [? ?]. discriminate.
Qed.

Lemma POST_statistics (now : Z) (st : Storage) :
  same st ->
  exists st', same st' /\
    POST now true st
    = (Complete
         (mkStats (length (readdir (documents st0)))
            (count (Some true) (readdir (documents st0)))
            (count None (readdir (documents st0)))
            (count (Some false) (readdir (documents st0)))),
       st').
Proof.
  intros H. unfold POST. cbn [negb]. cbv zeta.
  rewrite (proj1 H).
  destruct (fold_outcomes now (readdir (documents st0)) st 0 0 0 H) as (st' & H' & ->).
  exists st'. split; [exact H' | reflexivity].
Qed.

End Batch.

(** X16: a batch run over existing documents counts every document file
    exactly once, as generated, skipped or failed; it skips exactly the
    files for which a [.png] preview exists, and leaves documents, metadata
    and folders alone. Since the generator writes [.svg] files, which the
    run never looks for, a second run answers the same statistics: every
    preview generated by the first run is generated again. *)
Theorem batch_run_statistics (now : Z) (st : Storage) :
  exists stats st',
    PreviewBatch.POST now true st = (PreviewBatch.Complete stats, st') /\
    PreviewBatch.total stats = length (readdir (documents st)) /\
    PreviewBatch.generated stats + PreviewBatch.skipped stats + PreviewBatch.errors stats
    = PreviewBatch.total stats /\
    PreviewBatch.skipped stats
    = length (filter (fun file =>
                        is_Some (previews st
                                   !! (PreviewBatch.documentIdOf file +:+ ".png")))
                (readdir (documents st))) /\
    documents st' = documents st /\ metadata st' = metadata st /\
    folders st' = folders st /\
    forall now', (PreviewBatch.POST now' true st').1 = PreviewBatch.Complete stats.
Proof.
  destruct (POST_statistics st now st (same_refl st)) as (st' & H' & E).
  eexists. exists st'. split; [exact E |].
  cbn [PreviewBatch.total PreviewBatch.generated PreviewBatch.skipped PreviewBatch.errors].
  split; [reflexivity |]. split; [apply counts_add_up |].
  split; [apply skipped_files |].
  destruct H' as (Hd & Hm & Hf & Hp).
  split; [exact Hd |]. split; [exact Hm |]. split; [exact Hf |].
  intros now'.
  destruct (POST_statistics st now' st' (conj Hd (conj Hm (conj Hf Hp)))) as (st'' & _ & ->).
  reflexivity.
Qed.

(** ** Listings *)

Section Sorting.

Context {A : Type} (compare : A -> A -> Z) (key : A -> Z).

(** The comparators of the routes are differences of time stamps. *)
Hypothesis compare_key : forall x y, (compare x y <= 0)%Z <-> (key x <= key y)%Z.

Let ordered (x y : A) : Prop := (key x <= key y)%Z.

Lemma insertBy_perm (x : A) (l : list A) : DocumentRead.insertBy compare x l ≡ₚ x :: l.
Proof.
  induction l as [|a l IH]; cbn [DocumentRead.insertBy]; [reflexivity |].
  destruct (compare x a <=? 0)%Z; [reflexivity |].
  rewrite IH. apply perm_swap.
Qed.

Lemma sortBy_perm (l : list A) : DocumentRead.sortBy compare l ≡ₚ l.
Proof.
  unfold DocumentRead.sortBy. induction l as [|a l IH]; cbn [foldr]; [reflexivity |].
  now rewrite insertBy_perm, IH.
Qed.

Lemma insertBy_sorted (x : A) (l : list A) :
  StronglySorted ordered l -> StronglySorted ordered (DocumentRead.insertBy compare x l).
Proof.
  induction 1 as [|a l Hl IH Ha]; cbn [DocumentRead.insertBy].
  - constructor; constructor.
  - destruct (Z.leb_spec (compare x a) 0) as [Hle | Hgt].
    + apply compare_key in Hle. constructor; [now constructor |].
      constructor; [exact Hle |].
      eapply Forall_impl; [exact Ha |]. unfold ordered. intros b Hb. cbn in Hb. lia.
    + assert (Hax : ordered a x).
      { unfold ordered. destruct (Z.le_gt_cases (key x) (key a)) as [Hk | Hk]; [| lia].
        apply compare_key in Hk. lia. }
      constructor; [exact IH |]. rewrite insertBy_perm. now constructor.
Qed.

Lemma sortBy_sorted (l : list A) : StronglySorted ordered (DocumentRead.sortBy compare l).
Proof.
  unfold DocumentRead.sortBy. induction l as [|a l IH]; cbn [foldr]; [constructor |].
  now apply insertBy_sorted.
Qed.

End Sorting.

Lemma StronglySorted_weaken {A : Type} (R S : A -> A -> Prop) (l : list A) :
  (forall a b, R a b -> S a b) -> StronglySorted R l -> StronglySorted S l.
Proof.
  intros HRS. induction 1 as [|a l _ IH Ha]; constructor; [exact IH |].
  eapply Forall_impl; [exact Ha |]. intros b. apply HRS.
Qed.

(** X17: the document listing holds one entry for every metadata record,
    and no other, and runs from the most recently modified document to the
    least recently modified one. *)
Theorem document_listing_newest_first (getTime : string -> Z)
    (toLocaleDateString : string -> string) (now : Z) (st : Storage) :
  let listing := DocumentRead.LIST getTime toLocaleDateString now st in
  listing ≡ₚ map (DocumentRead.summaryOf toLocaleDateString now st)
               (map_to_list (metadata st)).*2 /\
  StronglySorted
    (fun a b => (getTime (DocumentRead.summary_modifiedAt b)
                 <= getTime (DocumentRead.summary_modifiedAt a))%Z)
    listing.
Proof.
  cbv zeta. unfold DocumentRead.LIST. split.
  - apply sortBy_perm.
  - apply (StronglySorted_weaken
             (fun a b => (- getTime (DocumentRead.summary_modifiedAt a)
                          <= - getTime (DocumentRead.summary_modifiedAt b))%Z));
      [intros a b Hab; lia |].
    apply (sortBy_sorted (DocumentRead.newestFirst getTime)
             (fun a => (- getTime (DocumentRead.summary_modifiedAt a))%Z)).
    intros x y. unfold DocumentRead.newestFirst. lia.
Qed.

Lemma entryOf_root (f : FolderData) :
  FolderList.is_root (FolderList.entryOf f) = true ->
  folder_parentFolderId (FolderList.entryOf f) = None.
Proof.
  unfold FolderList.is_root, FolderList.entryOf. cbn.
  destruct (folder_parentFolderId f) as [parent|]; [| reflexivity].
  destruct (JS.nonempty parent) eqn:E; [| reflexivity]. cbn. now rewrite E.
Qed.

Lemma folder_listing (getTime : string -> Z) (records : list FolderData) :
  let listing :=
    DocumentRead.sortBy (FolderList.oldestFirst getTime)
      (filter (fun f => FolderList.is_root f = true) (map FolderList.entryOf records)) in
  listing ≡ₚ filter (fun f => FolderList.is_root f = true)
               (map FolderList.entryOf records) /\
  StronglySorted
    (fun a b => (getTime (folder_createdAt a) <= getTime (folder_createdAt b))%Z) listing /\
  Forall (fun f => folder_parentFolderId f = None) listing.
Proof.
  cbv zeta.
  assert (Hperm : DocumentRead.sortBy (FolderList.oldestFirst getTime)
                    (filter (fun f => FolderList.is_root f = true)
                       (map FolderList.entryOf records))
                  ≡ₚ filter (fun f => FolderList.is_root f = true)
                       (map FolderList.entryOf records)).
  { apply sortBy_perm. }
  split; [exact Hperm |]. split.
  - apply (sortBy_sorted (FolderList.oldestFirst getTime)
             (fun f => getTime (folder_createdAt f))).
    intros x y. unfold FolderList.oldestFirst. lia.
  - rewrite Hperm. apply Forall_forall. intros f [Hroot Hin]%list_elem_of_filter.
    change (f ∈ FolderList.entryOf <$> records) in Hin.
    apply list_elem_of_fmap in Hin as (g & -> & _). now apply entryOf_root.
Qed.

(** X18: when the folders directory exists, the folder listing writes
    nothing and holds exactly the entries of the folder records without a
    parent - a null or an empty parentFolderId, which the entry shows as
    null - from the oldest to the most recently created one. *)
Theorem folder_listing_roots_oldest_first (getTime : string -> Z) (now : string)
    (timestamp : Z) (r1 r2 : string) (st : Storage) :
  let listing := (FolderList.GET getTime now timestamp r1 r2 true st).1 in
  (FolderList.GET getTime now timestamp r1 r2 true st).2 = st /\
  listing ≡ₚ filter (fun f => FolderList.is_root f = true)
               (map FolderList.entryOf (map_to_list (folders st)).*2) /\
  StronglySorted
    (fun a b => (getTime (folder_createdAt a) <= getTime (folder_createdAt b))%Z) listing /\
  Forall (fun f => folder_parentFolderId f = None) listing.
Proof.
  cbv zeta. unfold FolderList.GET. cbn [fst snd]. split; [reflexivity |].
  apply folder_listing.
Qed.

Lemma generateFolderId_inj (timestamp : Z) (r1 r2 : string) :
  Folders.generateFolderId timestamp r1 = Folders.generateFolderId timestamp r2 -> r1 = r2.
Proof.
  unfold Folders.generateFolderId. intros H.
  apply (inj (String.append _)) in H. apply (inj (String.append _)) in H.
  now apply (inj (String.append _)) in H.
Qed.

(** X19: the first folder listing, made while the folders directory does
    not exist yet, creates the root folders Notes and Journal (given two
    different random strings) and lists exactly these two; nothing else is
    written, and the next listing finds the directory and answers the same
    without creating anything. *)
Theorem first_folder_listing_creates_defaults (getTime : string -> Z) (now : string)
    (timestamp : Z) (r1 r2 : string) (st : Storage) :
  folders st = ∅ -> r1 <> r2 ->
  let notes :=
    mkFolderData (Folders.generateFolderId timestamp r1) "Notes" None now now 0 in
  let journal :=
    mkFolderData (Folders.generateFolderId timestamp r2) "Journal" None now now 0 in
  let listing := (FolderList.GET getTime now timestamp r1 r2 false st).1 in
  let st' := (FolderList.GET getTime now timestamp r1 r2 false st).2 in
  listing ≡ₚ [notes; journal] /\
  map_to_list (folders st') ≡ₚ [(folder_id notes, notes); (folder_id journal, journal)] /\
  documents st' = documents st /\ metadata st' = metadata st /\
  previews st' = previews st /\
  forall now' timestamp' r1' r2',
    FolderList.GET getTime now' timestamp' r1' r2' true st' = (listing, st').
Proof.
  intros Hempty Hr. cbv zeta.
  unfold FolderList.GET, FolderList.createDefaultFolders.
  cbn [fold_left fst snd folders with_folders documents metadata previews].
  rewrite Hempty.
  assert (Hlist :
    map_to_list
      (<[Folders.generateFolderId timestamp r2 :=
           mkFolderData (Folders.generateFolderId timestamp r2) "Journal" None now now 0]>
         (<[Folders.generateFolderId timestamp r1 :=
              mkFolderData (Folders.generateFolderId timestamp r1) "Notes" None now now 0]>
            (∅ : gmap string FolderData)))
    ≡ₚ [(Folders.generateFolderId timestamp r1,
         mkFolderData (Folders.generateFolderId timestamp r1) "Notes" None now now 0);
        (Folders.generateFolderId timestamp r2,
         mkFolderData (Folders.generateFolderId timestamp r2) "Journal" None now now 0)]).
  { rewrite map_to_list_insert.
    - rewrite map_to_list_insert by apply lookup_empty.
      rewrite map_to_list_empty. apply perm_swap.
    - rewrite lookup_insert_ne; [apply lookup_empty |].
      intros H. apply Hr. exact (generateFolderId_inj _ _ _ H). }
  split; [| split; [exact Hlist | repeat split]].
  etransitivity; [apply folder_listing |].
  change (map FolderList.entryOf ?l) with (FolderList.entryOf <$> l).
  rewrite Hlist. cbn [fmap list_fmap snd].
  rewrite !filter_cons, filter_nil.
  repeat (destruct (decide _) as [?|Hn]; [| exfalso; apply Hn; reflexivity]).
  reflexivity.
Qed.

Lemma first_folder_listing_creates_defaults_witness :
  (FolderList.GET (fun _ => 0%Z) Scenario.now Scenario.timestamp "abc123" "def456"
     false Scenario.empty).1
  ≡ₚ [mkFolderData (Folders.generateFolderId Scenario.timestamp "abc123") "Notes" None
        Scenario.now Scenario.now 0;
      mkFolderData (Folders.generateFolderId Scenario.timestamp "def456") "Journal" None
        Scenario.now Scenario.now 0].
Proof.
  apply (first_folder_listing_creates_defaults (fun _ => 0%Z) Scenario.now
           Scenario.timestamp "abc123" "def456" Scenario.empty);
    [reflexivity | discriminate].
Defined.

(** ** Listings after a write *)

Section Listed.

Variable getTime : string -> Z.
Variable toLocaleDateString : string -> string.

Lemma listed_iff (now : Z) (st : Storage) (s : DocumentRead.Summary) :
  s ∈ DocumentRead.LIST getTime toLocaleDateString now st <->
  exists file m, metadata st !! file = Some m /\
                 s = DocumentRead.summaryOf toLocaleDateString now st m.
Proof.
  unfold DocumentRead.LIST. rewrite sortBy_perm.
  change (map ?f ?l) with (f <$> l). rewrite list_elem_of_fmap. split.
  - intros (m & -> & [[file m'] [-> Hin]]%list_elem_of_fmap).
    apply elem_of_map_to_list in Hin. now exists file, m'.
  - intros (file & m & Hm & ->). exists m. split; [reflexivity |].
    apply list_elem_of_fmap. exists (file, m). split; [reflexivity |].
    now apply elem_of_map_to_list.
Qed.

End Listed.

(** X20: a document that has just been created is in the listing, under
    the id and the title of the answer, with the time of creation and in no
    folder. *)
Theorem created_document_is_listed (getTime : string -> Z)
    (toLocaleDateString : string -> string) (now : string) (timestamp clock : Z)
    (randomString : string) (body : json) (st : Storage) :
  match Documents.POST now timestamp randomString body st with
  | (Success created, st') =>
      exists s,
        s ∈ DocumentRead.LIST getTime toLocaleDateString clock st' /\
        DocumentRead.summary_id s = Documents.created_documentId created /\
        DocumentRead.summary_title s = Documents.created_title created /\
        DocumentRead.summary_createdAt s = now /\
        DocumentRead.summary_modifiedAt s = now /\
        DocumentRead.summary_folderId s = None
  | (Failure _ _, st') => st' = st
  end.
Proof.
  unfold Documents.POST.
  destruct (invalid_body body); [reflexivity |].
  destruct (Documents.invalid_title body); [reflexivity |].
  cbv zeta. eexists. split.
  - apply listed_iff. eexists _, _. split; [| reflexivity].
    rewrite metadata_generatePreviewInBackground. cbn [metadata with_metadata].
    apply lookup_insert_eq.
  - cbn. repeat split.
Qed.

(** X21: in a storage whose records carry the id of their file, a
    document that has been deleted is no longer in the listing. *)
Theorem deleted_document_is_not_listed (getTime : string -> Z)
    (toLocaleDateString : string -> string) (clock : Z)
    (documentId answer : string) (st st' : Storage) :
  Cascade.ids_match_files st ->
  Documents.DELETE documentId st = (Success answer, st') ->
  Forall (fun s => DocumentRead.summary_id s <> documentId)
    (DocumentRead.LIST getTime toLocaleDateString clock st').
Proof.
  intros [_ Hids] Hdel. apply Forall_forall.
  intros s (file & m & Hm & ->)%listed_iff. cbn.
  assert (Hmeta : metadata st' = delete documentId (metadata st)).
  { unfold Documents.DELETE in Hdel.
    destruct (JS.nonempty documentId); cbn [negb] in Hdel; [| discriminate].
    destruct (documents st !! documentId); [| discriminate].
    cbv zeta in Hdel. cbn [metadata with_documents] in Hdel.
    destruct (metadata st !! documentId); [| discriminate].
    destruct (previews _ !! _); injection Hdel as _ <-; reflexivity. }
  rewrite Hmeta in Hm. apply lookup_delete_Some in Hm as [Hne Hm].
  rewrite (Hids file m Hm). congruence.
Qed.

Lemma deleted_document_is_not_listed_witness :
  Forall (fun s => DocumentRead.summary_id s <> "doc_1")
    (DocumentRead.LIST (fun _ => 0%Z) (fun d => d) 0
       (Documents.DELETE "doc_1" Shelf.start).2).
Proof.
  apply (deleted_document_is_not_listed (fun _ => 0%Z) (fun d => d) 0 "doc_1" "doc_1"
           Shelf.start (Documents.DELETE "doc_1" Shelf.start).2 start_ids_match).
  reflexivity.
Defined.

(** ** Folders after a write *)

Lemma generated_folder_id_valid (timestamp : Z) (randomString : string) :
  Folders.invalid_id (Folders.generateFolderId timestamp randomString) = false.
Proof.
  unfold Folders.invalid_id, Folders.generateFolderId, JS.startsWith. cbn.
  now rewrite prefix_empty.
Qed.

Lemma root_listed (getTime : string -> Z) (now : string) (timestamp : Z)
    (r1 r2 file : string) (f : FolderData) (st : Storage) :
  folders st !! file = Some f -> folder_parentFolderId f = None ->
  f ∈ (FolderList.GET getTime now timestamp r1 r2 true st).1.
Proof.
  intros Hf Hroot. unfold FolderList.GET. cbn [fst].
  rewrite sortBy_perm. apply list_elem_of_filter.
  split; [unfold FolderList.is_root; now rewrite Hroot |].
  change (map ?g ?l) with (g <$> l). apply list_elem_of_fmap. exists f. split.
  - destruct f as [i n p c m k]. cbn in Hroot. subst p. reflexivity.
  - apply list_elem_of_fmap. exists (file, f). split; [reflexivity |].
    now apply elem_of_map_to_list.
Qed.

(** X22: a folder that has just been created by a request whose
    parentFolderId is absent, falsy or a string can be opened under the id
    of the answer, and shows up where its parent says: in the listing of
    the root folders when it has none, otherwise among the subfolders of
    its parent - whenever the parent can be opened, which the creation does
    not check. *)
Theorem created_folder_is_visible (getTime : string -> Z) (now now' : string)
    (timestamp : Z) (randomString : string) (body : json) (st : Storage) :
  Folders.string_parent body = true ->
  match Folders.POST now timestamp randomString body st with
  | (Success f, st') =>
      match Json.get body "parentFolderId" with
      | Some (JStr parent) =>
          folder_parentFolderId f = if JS.nonempty parent then Some parent else None
      | Some v => Json.truthy v = false /\ folder_parentFolderId f = None
      | None => folder_parentFolderId f = None
      end /\
      (exists d st'',
         Folders.GET now' (folder_id f) st' = (Success d, st'') /\
         folder_id (Folders.detail_folder d) = folder_id f /\
         folder_name (Folders.detail_folder d) = folder_name f /\
         folder_parentFolderId (Folders.detail_folder d) = folder_parentFolderId f) /\
      match folder_parentFolderId f with
      | None =>
          forall clock timestamp' r1 r2,
            f ∈ (FolderList.GET getTime clock timestamp' r1 r2 true st').1
      | Some parent =>
          match Folders.GET now' parent st' with
          | (Success d, _) => f ∈ Folders.detail_subfolders d
          | (Failure _ _, st'') => st'' = st'
          end
      end
  | (Failure _ _, st') => st' = st
  end.
Proof.
  intros Hbody. unfold Folders.POST.
  destruct (invalid_body body); [reflexivity |].
  destruct (Folders.sanitizedName body) as [name | status error]; [| reflexivity].
  cbv zeta. cbn [folder_id folder_name folder_parentFolderId].
  set (folderId := Folders.generateFolderId timestamp randomString).
  set (f := mkFolderData folderId name (Folders.parentFolderId body) now now 0).
  assert (Hf : folders (with_folders (insert folderId f) st) !! folderId = Some f)
    by apply lookup_insert_eq.
  split; [| split].
  - unfold Folders.string_parent in Hbody. unfold Folders.parentFolderId.
    destruct (Json.get body "parentFolderId") as [[| b | n | parent | items | fields]|];
      try reflexivity; (split; [| reflexivity]); now apply negb_true_iff.
  - unfold Folders.GET. unfold folderId at 1.
    rewrite generated_folder_id_valid. fold folderId. rewrite Hf.
    destruct (bool_decide _); eexists _, _; (split; [reflexivity |]); cbn; repeat split.
  - destruct (Folders.parentFolderId body) as [parent|] eqn:Hparent.
    + unfold Folders.GET.
      destruct (Folders.invalid_id parent); [reflexivity |].
      destruct (folders _ !! parent); [| reflexivity].
      assert (Hin : f ∈ Folders.childFolders parent (with_folders (insert folderId f) st)).
      { unfold Folders.childFolders. apply list_elem_of_filter.
        split; [reflexivity |].
        apply list_elem_of_fmap. exists (folderId, f). split; [reflexivity |].
        now apply elem_of_map_to_list. }
      destruct (bool_decide _); exact Hin.
    + intros clock timestamp' r1 r2.
      now apply (root_listed getTime clock timestamp' r1 r2 folderId).
Qed.

Lemma created_folder_is_visible_witness :
  match
    Folders.POST Scenario.later Scenario.timestamp "abc123"
      (JObj [("name", JStr "Trips"); ("parentFolderId", JStr "folder_a")]) Shelf.start
  with
  | (Success f, st') =>
      folder_parentFolderId f = Some "folder_a" /\
      (exists d st'',
         Folders.GET Scenario.later (folder_id f) st' = (Success d, st'') /\
         folder_id (Folders.detail_folder d) = folder_id f /\
         folder_name (Folders.detail_folder d) = folder_name f /\
         folder_parentFolderId (Folders.detail_folder d) = folder_parentFolderId f) /\
      match folder_parentFolderId f with
      | None =>
          forall clock timestamp' r1 r2,
            f ∈ (FolderList.GET (fun _ => 0%Z) clock timestamp' r1 r2 true st').1
      | Some parent =>
          match Folders.GET Scenario.later parent st' with
          | (Success d, _) => f ∈ Folders.detail_subfolders d
          | (Failure _ _, st'') => st'' = st'
          end
      end
  | (Failure _ _, st') => st' = Shelf.start
  end.
Proof.
  apply (created_folder_is_visible (fun _ => 0%Z) Scenario.later Scenario.later
           Scenario.timestamp "abc123"
           (JObj [("name", JStr "Trips"); ("parentFolderId", JStr "folder_a")])
           Shelf.start).
  reflexivity.
Defined.

Section Rename.

Variables (st : Storage) (folderId : string) (f f' : FolderData).

Hypothesis found : folders st !! folderId = Some f.
Hypothesis same_parent : folder_parentFolderId f' = folder_parentFolderId f.


End Rename.



(** ** The id the batch run derives from a file name *)

Lemma json_prefix_of_file (s : string) :
  String.prefix ".json" (s +:+ ".json") = true ->
  s = EmptyString \/ String.prefix ".json" s = true.
Proof.
  intros H. destruct s as [|c1 s]; [now left | right].
  cbn [String.append String.prefix] in *.
  destruct (ascii_dec "." c1); [| discriminate H].
  destruct s as [|c2 s]; [vm_compute in H; discriminate H |].
  cbn [String.append String.prefix] in *.
  destruct (ascii_dec "j" c2); [| discriminate H].
  destruct s as [|c3 s]; [vm_compute in H; discriminate H |].
  cbn [String.append String.prefix] in *.
  destruct (ascii_dec "s" c3); [| discriminate H].
  destruct s as [|c4 s]; [vm_compute in H; discriminate H |].
  cbn [String.append String.prefix] in *.
  destruct (ascii_dec "o" c4); [| discriminate H].
  destruct s as [|c5 s]; [vm_compute in H; discriminate H |].
  cbn [String.append String.prefix] in *.
  destruct (ascii_dec "n" c5); [| discriminate H].
  apply prefix_empty.
Qed.

Lemma removeFirst_suffix (stem : string) :
  JSSearch.includes stem ".json" = false ->
  JSSearch.removeFirst (stem +:+ ".json") ".json" = stem.
Proof.
  induction stem as [|c stem IH]; intros H; [reflexivity |].
  cbn [JSSearch.includes] in H. apply orb_false_iff in H as [Hp Hi].
  change (String c stem +:+ ".json") with (String c (stem +:+ ".json")).
  cbn [JSSearch.removeFirst].
  destruct (String.prefix ".json" (String c (stem +:+ ".json"))) eqn:E.
  - apply (json_prefix_of_file (String c stem)) in E as [E | E];
      [discriminate E | congruence].
  - now rewrite IH.
Qed.

(** X24: the batch run derives the document id from a file name by
    removing the first [.json] of the name; this is the name without its
    extension - the id of the document - whenever the id itself does not
    contain [.json]. *)
Theorem batch_id_is_file_stem (documentId : string) :
  JSSearch.includes documentId ".json" = false ->
  PreviewBatch.documentIdOf documentId = documentId.
Proof. exact (removeFirst_suffix documentId). Qed.

Lemma batch_id_is_file_stem_witness :
  PreviewBatch.documentIdOf "doc_1735689600000_abc123" = "doc_1735689600000_abc123" /\
  PreviewBatch.documentIdOf "a.json.b" = "a.b.json".
Proof.
  split; [| reflexivity].
  apply (batch_id_is_file_stem "doc_1735689600000_abc123"). reflexivity.
Defined.
